(** * Volatility client action: renderer, value coercion and session cache

    A shallow embedding of [client/client_actions/grr_volatility.py]:
    the [ProtobufRenderer] class (section state machine and [AddValue]), and
    [VolatilityAction.Run] with its process-wide [SESSION_CACHE].

    Python objects that the code mutates through several names (the cached
    session, the protobuf under construction) live in explicit state; a
    Python exception is a value of [PyResult]. *)

From stdpp Require Import base option list strings gmap fin_maps.
From Stdlib Require Import ZArith Ascii Lia.

Local Open Scope string_scope.
Local Open Scope Z_scope.
Local Open Scope list_scope.

(** ** Python exceptions *)

(** The exception classes that the [except] clauses of the module tell
    apart, two more classes of [Exception] that plugins commonly raise, and
    [KeyboardInterrupt] for the classes that derive from [BaseException]
    but not from [Exception]. *)
Inductive ExcClass :=
| AttributeError
| ValueError
| KeyError
| TypeError
| UnboundLocalError
| AssertionError
| IOError
| KeyboardInterrupt.

#[global] Instance ExcClass_eq_dec : EqDecision ExcClass.
Proof. solve_decision. Defined.

(** [exc_str] is what [str(e)] returns. *)
Record PyExc := { exc_class : ExcClass; exc_str : string }.

(** [isinstance(e, Exception)] *)
Definition isinstance_Exception (e : PyExc) : bool :=
  bool_decide (exc_class e ≠ KeyboardInterrupt).

(** [except (AttributeError, ValueError)] *)
Definition AttributeError_or_ValueError (e : PyExc) : bool :=
  bool_decide (exc_class e = AttributeError) || bool_decide (exc_class e = ValueError).

Inductive PyResult (A : Type) :=
| Ok (a : A)
| Raise (e : PyExc).
Arguments Ok {A} a.
Arguments Raise {A} e.

(** ** A state monad with exceptions

    A method that mutates [self] (or a protobuf passed to it) and may raise:
    the state after the call is kept also when the call raises, as in
    Python. *)
Definition M (St A : Type) : Type := St → St * PyResult A.

Definition ret {St A} (a : A) : M St A := λ s, (s, Ok a).
Definition raise {St A} (e : PyExc) : M St A := λ s, (s, Raise e).
Definition bind {St A B} (m : M St A) (k : A → M St B) : M St B :=
  λ s, match m s with
       | (s', Ok a) => k a s'
       | (s', Raise e) => (s', Raise e)
       end.
Definition get {St} : M St St := λ s, (s, Ok s).
Definition modify {St} (f : St → St) : M St unit := λ s, (f s, Ok tt).
(** The result of calling a method of a foreign object. *)
Definition call {St A} (r : PyResult A) : M St A := λ s, (s, r).

(** [try: m  except <classes accepted by catches>: handler] *)
Definition try_except {St A} (m : M St A) (catches : PyExc → bool)
    (handler : PyExc → M St A) : M St A :=
  λ s, match m s with
       | (s', Ok a) => (s', Ok a)
       | (s', Raise e) => if catches e then handler e s' else (s', Raise e)
       end.

Notation "'do' x <- c ; k" := (bind c (λ x, k))
  (at level 10, x name, c at level 100, k at level 200,
   format "'[v' 'do'  x  <-  c ; '/' k ']'").

(** [for x in xs: body x] *)
Fixpoint for_each {St A} (xs : list A) (body : A → M St unit) : M St unit :=
  match xs with
  | [] => ret tt
  | x :: xs' => do _ <- body x ; for_each xs' body
  end.

(** ** Python values that reach the renderer *)

(** An instance of [obj.BaseObject]: the four attributes [AddValue] copies
    ([obj_vm] is the text [utils.SmartStr] makes of it) and the outcome of
    the three conversion methods it calls. *)
Record BaseObject := {
  obj_type : string;
  obj_name : string;
  obj_offset : Z;
  obj_vm : string;
  obj_int : PyResult Z;          (* value.__int__() *)
  obj_unicode : PyResult string; (* value.__unicode__() *)
  obj_str : PyResult string      (* value.__str__() *)
}.

Inductive PyValue :=
| PyNone
| PyBool (b : bool)
| PyInt (z : Z)                         (* int, long *)
| PyStr (s : string)                    (* str, unicode *)
| PyBaseObject (o : BaseObject)
| PyNoneObject (class_name reason : string)  (* obj.NoneObject *)
| PyOther (repr_text : string).         (* any other object, with its repr() *)

Definition isinstance_bool (v : PyValue) : bool :=
  match v with PyBool _ => true | _ => false end.

(** [bool] is a subclass of [int]: [isinstance(True, (int, long))] holds. *)
Definition isinstance_int_long (v : PyValue) : bool :=
  match v with PyInt _ | PyBool _ => true | _ => false end.

Definition isinstance_basestring (v : PyValue) : bool :=
  match v with PyStr _ => true | _ => false end.

Definition isinstance_NoneObject (v : PyValue) : bool :=
  match v with PyNoneObject _ _ => true | _ => false end.

(** What the branches of [AddValue] read from a value of the class they
    tested for. *)
Definition int_of (v : PyValue) : Z :=
  match v with PyInt z => z | PyBool b => Z.b2z b | _ => 0 end.

Definition text_of (v : PyValue) : string :=
  match v with PyStr s => s | _ => "" end.

Definition class_name_of (v : PyValue) : string :=
  match v with PyNoneObject c _ => c | _ => "" end.

Definition reason_of (v : PyValue) : string :=
  match v with PyNoneObject _ r => r | _ => "" end.

(** [str(value)] for a [bool]. *)
Definition str_bool (v : PyValue) : string :=
  match v with PyBool true => "True" | _ => "False" end.

(** [repr(value)] for the values no earlier test of [AddValue] accepts. *)
Definition repr (v : PyValue) : string :=
  match v with PyNone => "None" | PyOther r => r | _ => "" end.

(** ** [int(text)]

    Python's conversion of a text to an integer in base 10: white space
    around the literal is skipped, one sign is allowed, and at least one
    decimal digit is required; anything else is a [ValueError], here [None].
    (Texts are ASCII; the trailing [L] that Python 2 tolerates on a literal
    too large for a machine word is not modelled.) *)
Definition is_space (c : ascii) : bool :=
  let n := N_of_ascii c in ((9 <=? n)%N && (n <=? 13)%N) || (n =? 32)%N.

Definition digit_of (c : ascii) : option Z :=
  let n := Z.of_N (N_of_ascii c) in
  if (48 <=? n)%Z && (n <=? 57)%Z then Some (n - 48) else None.

Fixpoint all_space (s : string) : bool :=
  match s with
  | EmptyString => true
  | String c s' => is_space c && all_space s'
  end.

Fixpoint lstrip (s : string) : string :=
  match s with
  | EmptyString => EmptyString
  | String c s' => if is_space c then lstrip s' else s
  end.

Fixpoint int_digits (acc : Z) (s : string) : option Z :=
  match s with
  | EmptyString => Some acc
  | String c s' =>
      match digit_of c with
      | Some d => int_digits (10 * acc + d) s'
      | None => if all_space s then Some acc else None
      end
  end.

Definition int_unsigned (s : string) : option Z :=
  match s with
  | EmptyString => None
  | String c s' =>
      match digit_of c with
      | Some d => int_digits d s'
      | None => None
      end
  end.

Definition py_int (text : string) : option Z :=
  match lstrip text with
  | String "-" s' => Z.opp <$> int_unsigned s'
  | String "+" s' => int_unsigned s'
  | s => int_unsigned s
  end.

(** Truth value of a text: [if string_value:] *)
Definition nonempty (s : string) : bool :=
  match s with EmptyString => false | _ => true end.

(** ** The protobuf messages *)

(** Modelled from the spec: the message declarations of [jobs_pb2] are not
    part of the source file. The records of this part have the fields the
    source assigns (the spec's Value, Section and ResultDocument); every
    scalar field is optional, integers are unbounded, and reading an integer
    field that was never assigned gives 0. *)
Record VolatilityValue := {
  v_type : option string;
  v_name : option string;
  v_offset : option Z;
  v_vm : option string;
  v_value : option Z;
  v_svalue : option string;
  v_reason : option string
}.

Definition new_value : VolatilityValue :=
  {| v_type := None; v_name := None; v_offset := None; v_vm := None;
     v_value := None; v_svalue := None; v_reason := None |}.

Definition set_type (x : string) (r : VolatilityValue) : VolatilityValue :=
  {| v_type := Some x; v_name := v_name r; v_offset := v_offset r; v_vm := v_vm r;
     v_value := v_value r; v_svalue := v_svalue r; v_reason := v_reason r |}.
Definition set_name (x : string) (r : VolatilityValue) : VolatilityValue :=
  {| v_type := v_type r; v_name := Some x; v_offset := v_offset r; v_vm := v_vm r;
     v_value := v_value r; v_svalue := v_svalue r; v_reason := v_reason r |}.
Definition set_offset (x : Z) (r : VolatilityValue) : VolatilityValue :=
  {| v_type := v_type r; v_name := v_name r; v_offset := Some x; v_vm := v_vm r;
     v_value := v_value r; v_svalue := v_svalue r; v_reason := v_reason r |}.
Definition set_vm (x : string) (r : VolatilityValue) : VolatilityValue :=
  {| v_type := v_type r; v_name := v_name r; v_offset := v_offset r; v_vm := Some x;
     v_value := v_value r; v_svalue := v_svalue r; v_reason := v_reason r |}.
Definition set_value (x : Z) (r : VolatilityValue) : VolatilityValue :=
  {| v_type := v_type r; v_name := v_name r; v_offset := v_offset r; v_vm := v_vm r;
     v_value := Some x; v_svalue := v_svalue r; v_reason := v_reason r |}.
Definition set_svalue (x : string) (r : VolatilityValue) : VolatilityValue :=
  {| v_type := v_type r; v_name := v_name r; v_offset := v_offset r; v_vm := v_vm r;
     v_value := v_value r; v_svalue := Some x; v_reason := v_reason r |}.
Definition set_reason (x : string) (r : VolatilityValue) : VolatilityValue :=
  {| v_type := v_type r; v_name := v_name r; v_offset := v_offset r; v_vm := v_vm r;
     v_value := v_value r; v_svalue := v_svalue r; v_reason := Some x |}.

(** Reading [response.value]: the assigned integer, or the default. *)
Definition read_value (r : VolatilityValue) : Z := default 0 (v_value r).

Record Header := {
  h_print_name : string;
  h_name : string;
  h_format_hint : string
}.

Record Table := {
  headers : list Header;
  rows : list (list VolatilityValue)
}.

Record FormattedValue := {
  formatstring : string;
  data : list VolatilityValue
}.

(** A section holds a [table] and a [formatted_value_list]; which of the
    two is filled tells a table section from a text section. *)
Record Section := {
  table : Table;
  formatted_values : list FormattedValue
}.

Record VolatilityResponse := {
  plugin : option string;
  error : option string;
  sections : list Section
}.

(** ** [ProtobufRenderer.AddValue] *)

(** [utils.SmartUnicode] and [utils.SmartStr] return their argument as a
    text; on the texts of this model they change nothing. *)
Definition SmartUnicode (s : string) : string := s.

(** The body of [AddValue] after [response = row.values.add()]: the state is
    the new [response]. [string_value] is [None] while the local name is
    still unbound. *)
Definition AddValue_response (value : PyValue) : M VolatilityValue unit :=
  match value with
  | PyBaseObject o =>
      do _ <- modify (set_type (obj_type o)) ;
      do _ <- modify (set_name (obj_name o)) ;
      do _ <- modify (set_offset (obj_offset o)) ;
      do _ <- modify (set_vm (obj_vm o)) ;
      do _ <- try_except (do z <- call (obj_int o) ; modify (set_value z))
                AttributeError_or_ValueError (λ _, ret tt) ;
      do string_value <-
        try_except (do s <- call (obj_unicode o) ; ret (Some s))
          AttributeError_or_ValueError
          (λ _, try_except (do s <- call (obj_str o) ; ret (Some s))
                  AttributeError_or_ValueError (λ _, ret None)) ;
      match string_value with
      | None =>
          raise {| exc_class := UnboundLocalError;
                   exc_str := "local variable 'string_value' referenced before assignment" |}
      | Some s =>
          if nonempty s then
            match py_int s with
            | Some int_value =>
                do response <- get ;
                if bool_decide (int_value ≠ read_value response)
                then modify (set_svalue (SmartUnicode s))
                else ret tt
            | None => modify (set_svalue (SmartUnicode s))
            end
          else ret tt
      end
  | _ =>
      if isinstance_bool value then
        modify (set_svalue (SmartUnicode (str_bool value)))
      else if isinstance_int_long value then
        modify (set_value (int_of value))
      else if isinstance_basestring value then
        modify (set_svalue (SmartUnicode (text_of value)))
      else if isinstance_NoneObject value then
        do _ <- modify (set_type (class_name_of value)) ;
        modify (set_reason (reason_of value))
      else
        modify (set_svalue (SmartUnicode (repr value)))
  end.

(** [AddValue(self, row, value)]: the state is [row.values]. The new message
    is part of the row from the first line on, so it stays there, half
    filled, when the rest of the body raises. *)
Definition AddValue (value : PyValue) : M (list VolatilityValue) unit :=
  λ row, let '(response, r) := AddValue_response value new_value in
         (row ++ [response], r).

(** ** [ProtobufRenderer] *)

Inductive Modes := TABLE | STRING.

#[global] Instance Modes_eq_dec : EqDecision Modes.
Proof. solve_decision. Defined.

(** [active_section] refers to a message inside [response.sections]: it is
    the index of that section. *)
Record ProtobufRenderer := {
  response : VolatilityResponse;
  active_section : option nat;
  mode : option Modes
}.

(** [ProtobufRenderer.__init__] *)
Definition ProtobufRenderer_init : ProtobufRenderer :=
  {| response := {| plugin := None; error := None; sections := [] |};
     active_section := None;
     mode := None |}.

Definition set_active_section (a : option nat) (self : ProtobufRenderer) : ProtobufRenderer :=
  {| response := response self; active_section := a; mode := mode self |}.

Definition set_mode (m : option Modes) (self : ProtobufRenderer) : ProtobufRenderer :=
  {| response := response self; active_section := active_section self; mode := m |}.

Definition set_sections (l : list Section) (r : VolatilityResponse) : VolatilityResponse :=
  {| plugin := plugin r; error := error r; sections := l |}.

Definition set_plugin (p : string) (r : VolatilityResponse) : VolatilityResponse :=
  {| plugin := Some p; error := error r; sections := sections r |}.

Definition set_error (e : string) (r : VolatilityResponse) : VolatilityResponse :=
  {| plugin := plugin r; error := Some e; sections := sections r |}.

Definition set_response (r : VolatilityResponse) (self : ProtobufRenderer) : ProtobufRenderer :=
  {| response := r; active_section := active_section self; mode := mode self |}.

Definition new_section : Section :=
  {| table := {| headers := []; rows := [] |}; formatted_values := [] |}.

(** [self.active_section = self.response.sections.add()] *)
Definition add_section (self : ProtobufRenderer) : ProtobufRenderer :=
  {| response := set_sections (sections (response self) ++ [new_section]) (response self);
     active_section := Some (length (sections (response self)));
     mode := mode self |}.

(** A change made through [self.active_section] is a change of that section
    of the response. *)
Definition on_active_section (f : Section → Section) (self : ProtobufRenderer)
    : ProtobufRenderer :=
  match active_section self with
  | Some i => set_response (set_sections (alter f i (sections (response self))) (response self)) self
  | None => self
  end.

Definition add_header (h : Header) (s : Section) : Section :=
  {| table := {| headers := headers (table s) ++ [h]; rows := rows (table s) |};
     formatted_values := formatted_values s |}.

Definition add_row (r : list VolatilityValue) (s : Section) : Section :=
  {| table := {| headers := headers (table s); rows := rows (table s) ++ [r] |};
     formatted_values := formatted_values s |}.

Definition add_formatted_value (fv : FormattedValue) (s : Section) : Section :=
  {| table := table s; formatted_values := formatted_values s ++ [fv] |}.

Definition InitSection (mode_arg : option Modes) : M ProtobufRenderer unit :=
  do self <- get ;
  do _ <- (if bool_decide (mode self ≠ mode_arg)
           then modify (set_active_section None) else ret tt) ;
  do self <- get ;
  do _ <- (match active_section self with
           | None => modify add_section
           | Some _ => ret tt
           end) ;
  modify (set_mode mode_arg).

(** [start(plugin_name=None)]; [if plugin_name:] holds for a text that is
    not empty. *)
Definition start (plugin_name : option string) : M ProtobufRenderer unit :=
  match plugin_name with
  | Some p => if nonempty p then modify (λ self, set_response (set_plugin p (response self)) self)
              else ret tt
  | None => ret tt
  end.

Definition end_ : M ProtobufRenderer unit := ret tt.

Definition flush : M ProtobufRenderer unit := ret tt.

Definition section : M ProtobufRenderer unit := modify (set_active_section None).

(** [format(formatstring, *data)]. The values are collected by [AddValue] in
    the [data] of the entry that was just added to the active section;
    nothing reads the entry before the loop ends or raises, so it is stored
    once, as the loop left it. *)
Definition format (formatstring_arg : string) (data_args : list PyValue)
    : M ProtobufRenderer unit :=
  do _ <- InitSection (Some STRING) ;
  λ self,
    let '(values, r) := for_each data_args AddValue [] in
    (on_active_section
       (add_formatted_value {| formatstring := formatstring_arg; data := values |}) self, r).

Definition write (data_arg : string) : M ProtobufRenderer unit :=
  format data_arg [].

(** [table_header(title_format_list=None, ...)]: iterating over [None] is a
    [TypeError]. *)
Definition table_header (title_format_list : option (list (string * string * string)))
    : M ProtobufRenderer unit :=
  do _ <- InitSection (Some TABLE) ;
  match title_format_list with
  | None => raise {| exc_class := TypeError; exc_str := "'NoneType' object is not iterable" |}
  | Some l =>
      for_each l (λ '(print_name, name, format_hint),
        modify (on_active_section
                  (add_header {| h_print_name := print_name; h_name := name;
                                 h_format_hint := format_hint |})))
  end.

(** [table_row(self, *args)], with the row stored as [format] stores its entry. *)
Definition table_row (args : list PyValue) : M ProtobufRenderer unit :=
  do _ <- InitSection (Some TABLE) ;
  λ self,
    let '(row, r) := for_each args AddValue [] in
    (on_active_section (add_row row) self, r).

Definition GetResponse (self : ProtobufRenderer) : VolatilityResponse := response self.

(** The calls a plugin makes on the renderer it is given. *)
Inductive RenderCall :=
| CallStart (plugin_name : option string)
| CallEnd
| CallWrite (data_arg : string)
| CallFormat (formatstring_arg : string) (data_args : list PyValue)
| CallSection
| CallFlush
| CallTableHeader (title_format_list : option (list (string * string * string)))
| CallTableRow (args : list PyValue).

Definition render_call (c : RenderCall) : M ProtobufRenderer unit :=
  match c with
  | CallStart p => start p
  | CallEnd => end_
  | CallWrite d => write d
  | CallFormat f d => format f d
  | CallSection => section
  | CallFlush => flush
  | CallTableHeader l => table_header l
  | CallTableRow a => table_row a
  end.

(** ** The session cache *)

(** Modelled from the spec: [utils.FastStore], the class of [SESSION_CACHE],
    is not part of the source file. The spec's ContextCache is a keyed store
    bounded by a capacity, with one entry per key and eviction of the least
    recently used entry. [Get] raises [KeyError] for a key that is not
    stored, and makes the entry it returns the most recent one; [Put] stores
    the object under the key as the most recent entry and drops the oldest
    entries beyond the capacity. The store holds references to the session
    objects. *)
Record FastStore := {
  max_size : nat;
  entries : list (string * nat)   (* most recently used first *)
}.

Fixpoint assoc (key : string) (l : list (string * nat)) : option nat :=
  match l with
  | [] => None
  | (k, obj) :: l' => if decide (k = key) then Some obj else assoc key l'
  end.

Definition store_lookup (key : string) (st : FastStore) : option nat :=
  assoc key (entries st).

Definition store_remove (key : string) (l : list (string * nat)) : list (string * nat) :=
  filter (λ e, e.1 ≠ key) l.

(** Modelled from the spec: [FastStore.Put]. *)
Definition FastStore_Put (key : string) (obj : nat) (st : FastStore) : FastStore :=
  {| max_size := max_size st;
     entries := take (max_size st) ((key, obj) :: store_remove key (entries st)) |}.

(** Modelled from the spec: [FastStore.Get]. *)
Definition FastStore_Get (key : string) (st : FastStore) : PyResult nat * FastStore :=
  match store_lookup key st with
  | Some obj =>
      (Ok obj, {| max_size := max_size st;
                  entries := (key, obj) :: store_remove key (entries st) |})
  | None => (Raise {| exc_class := KeyError; exc_str := key |}, st)
  end.

(** ** The session object and the world of the action *)

(** [args.device], and the handle [vfs.VFSOpen] returns for it; reading
    [fhandle.cr3] gives the page table base or raises. *)
Record PathSpec := { path : string }.

Record FHandle := { cr3 : PyResult Z }.

(** What an attribute of a session object can hold: a plain value, the
    handle, the [Progress] closure that [Run] installs, or the engine's
    plugin container. *)
Inductive AttrVal :=
| AValue (v : PyValue)
| AHandle (h : FHandle)
| AProgress
| APlugins.

(** A session object is its attribute dictionary. *)
Abbreviation Session := (gmap string AttrVal).

(** The request: [args.device], [args.args] after [ProtoDict(...).ToDict()],
    and [args.plugins]. *)
Record VolatilityRequest := {
  device : PathSpec;
  args_dict : gmap string PyValue;
  plugins : list string
}.

(** What the action does that can be seen from outside: a call of the
    closure [Progress] with its message, which heartbeats through
    [self.Progress()]; the run of a plugin inside the [try] of the loop (the
    heartbeats a plugin asks for itself are not recorded); a reply. *)
Inductive Event :=
| Progress (message : string)
| Invoke (plugin_name : string)
| SendReply (reply : VolatilityResponse).

(** The session objects created so far (a reference is an index in [heap]),
    the global [SESSION_CACHE], and the events so far. *)
Record World := {
  heap : list Session;
  SESSION_CACHE : FastStore;
  log : list Event
}.

Definition set_heap (h : list Session) (w : World) : World :=
  {| heap := h; SESSION_CACHE := SESSION_CACHE w; log := log w |}.

Definition set_cache (c : FastStore) (w : World) : World :=
  {| heap := heap w; SESSION_CACHE := c; log := log w |}.

Definition emit (e : Event) : M World unit :=
  modify (λ w, {| heap := heap w; SESSION_CACHE := SESSION_CACHE w; log := log w ++ [e] |}).

(** The replies sent so far, in the order they were sent. *)
Definition replies (w : World) : list VolatilityResponse :=
  omap (λ e, match e with SendReply r => Some r | _ => None end) (log w).

(** The engine and the platform, as far as [Run] depends on them. *)
Record Env := {
  platform : string;                          (* sys.platform *)
  VFSOpen : PathSpec → PyResult FHandle;      (* vfs.VFSOpen(args.device) *)
  (* vol_session.plugins.guess_profile(session=vol_session) *)
  guess_profile : Session → PyResult PyValue;
  (* getattr(plugins, name)(session=vol_session).render(renderer), for the
     value of [vol_session.plugins]: the calls made on the renderer, and the
     exception that ends them, if any *)
  run_plugin : AttrVal → string → Session → list RenderCall * option PyExc
}.

(** [session.Session()]: a new object, which has its plugin container. *)
Definition new_Session : M World nat :=
  λ w, (set_heap (heap w ++ [{[ "plugins" := APlugins ]}]) w, Ok (length (heap w))).

(** The object a reference denotes. Every reference a run holds denotes an
    object of the heap; for an index outside the heap the model reads no
    attributes and [setattr] changes nothing. *)
Definition the_session (vol_session : nat) (w : World) : Session :=
  default ∅ (heap w !! vol_session).

(** Reading an attribute; the engine's session gives [None] for a name that
    was never set. *)
Definition getattr (vol_session : nat) (k : string) : M World AttrVal :=
  λ w, (w, Ok (default (AValue PyNone) (the_session vol_session w !! k))).

Definition setattr (vol_session : nat) (k : string) (v : AttrVal) : M World unit :=
  modify (λ w, set_heap (alter (insert k v) vol_session (heap w)) w).

Definition SESSION_CACHE_Get (key : string) : M World nat :=
  λ w, let '(r, c) := FastStore_Get key (SESSION_CACHE w) in (set_cache c w, r).

Definition SESSION_CACHE_Put (key : string) (obj : nat) : M World unit :=
  modify (λ w, set_cache (FastStore_Put key obj (SESSION_CACHE w)) w).

Definition truthy_value (v : PyValue) : bool :=
  match v with
  | PyNone => false
  | PyBool b => b
  | PyInt z => bool_decide (z ≠ 0)
  | PyStr s => nonempty s
  | PyNoneObject _ _ => false
  | PyBaseObject _ | PyOther _ => true
  end.

(** [if not vol_session.profile] *)
Definition truthy (a : AttrVal) : bool :=
  match a with
  | AValue v => truthy_value v
  | _ => true
  end.

Definition is_KeyError (e : PyExc) : bool := bool_decide (exc_class e = KeyError).
Definition is_AttributeError (e : PyExc) : bool := bool_decide (exc_class e = AttributeError).

(** ** [VolatilityAction] *)

Definition GuessProfile (env : Env) (vol_session : nat) : M World PyValue :=
  if String.prefix "win" (platform env) then
    do w <- get ;
    call (guess_profile env (the_session vol_session w))
  else ret PyNone.

(** [Run], lines 189 to 216: the body of [except KeyError], which builds a
    session and puts it in the cache. *)
Definition Run_build_session (env : Env) (args : VolatilityRequest) : M World nat :=
  do vol_session <- new_Session ;
  do fhandle <- call (VFSOpen env (device args)) ;
  do _ <- setattr vol_session "fhandle" (AHandle fhandle) ;
  do _ <- setattr vol_session "progress" AProgress ;
  do _ <- try_except
            (do dtb <- call (cr3 fhandle) ; setattr vol_session "dtb" (AValue (PyInt dtb)))
            is_AttributeError (λ _, ret tt) ;
  do _ <- try_except
            (do p <- GuessProfile env vol_session ; setattr vol_session "profile" (AValue p))
            is_AttributeError (λ _, ret tt) ;
  do profile <- getattr vol_session "profile" ;
  do _ <- (if negb (truthy profile)
           then setattr vol_session "profile" (AValue (PyStr "Win7SP1x64"))
           else ret tt) ;
  do _ <- SESSION_CACHE_Put (path (device args)) vol_session ;
  ret vol_session.

(** [Run], lines 185 to 216: recover the session of the device from the
    cache, or build it. *)
Definition Run_session (env : Env) (args : VolatilityRequest) : M World nat :=
  try_except (SESSION_CACHE_Get (path (device args))) is_KeyError
    (λ _, Run_build_session env args).

(** [Run], lines 218 to 220. *)
Definition Run_setattrs (args : VolatilityRequest) (vol_session : nat) : M World unit :=
  for_each (map_to_list (args_dict args))
    (λ '(k, v), setattr vol_session k (AValue v)).

(** [vol_session.progress(message=...)]: the closure of [Run] ignores the
    message and heartbeats; any other value the attribute may hold is not
    callable. *)
Definition call_progress (progress : AttrVal) (message : string) : M World unit :=
  match progress with
  | AProgress => emit (Progress message)
  | _ => raise {| exc_class := TypeError; exc_str := "object is not callable" |}
  end.

(** What the [try] block of the loop does to the renderer. *)
Definition render_plugin (env : Env) (session : Session) (plugin_name : string)
    : M ProtobufRenderer unit :=
  let '(calls, failure) :=
    run_plugin env (default (AValue PyNone) (session !! "plugins")) plugin_name session in
  do _ <- for_each calls render_call ;
  match failure with
  | Some e => raise e
  | None => ret tt
  end.

(** Lines 228 to 235: a new renderer, started with the plugin's name, and
    the [try] block run on it; the renderer it leaves behind, and how the
    block ended. *)
Definition plugin_result (env : Env) (session : Session) (plugin_name : string)
    : ProtobufRenderer * PyResult unit :=
  (do _ <- start (Some plugin_name) ;
   render_plugin env session plugin_name) ProtobufRenderer_init.

(** The body of the loop over [args.plugins], lines 223 to 246. *)
Definition Run_plugin (env : Env) (vol_session : nat) (plugin_name : string) : M World unit :=
  let error := "" in
  do progress <- getattr vol_session "progress" ;
  do _ <- call_progress progress ("Running plugin " +:+ plugin_name) ;
  do w <- get ;
  do _ <- emit (Invoke plugin_name) ;
  let '(result_renderer, outcome) :=
    plugin_result env (the_session vol_session w) plugin_name in
  (* except Exception as e: error = str(e) *)
  do error <- match outcome with
              | Ok _ => ret error
              | Raise e => if isinstance_Exception e then ret (exc_str e) else raise e
              end ;
  let response := GetResponse result_renderer in
  let response := if nonempty error then set_error error response else response in
  emit (SendReply response).

Definition Run (env : Env) (args : VolatilityRequest) : M World unit :=
  do vol_session <- Run_session env args ;
  do _ <- Run_setattrs args vol_session ;
  for_each (plugins args) (Run_plugin env vol_session).


(** The state of a process that has run no action yet, for a store of the
    given capacity. *)
Definition initial_world (capacity : nat) : World :=
  {| heap := []; SESSION_CACHE := {| max_size := capacity; entries := [] |}; log := [] |}.

(** ** Notions the properties are stated with *)

(** The plugin returns, or raises an instance of [Exception]. *)
Definition ends_within_Exception (env : Env) (session : Session) (plugin_name : string)
    : bool :=
  match (plugin_result env session plugin_name).2 with
  | Ok _ => true
  | Raise e => isinstance_Exception e
  end.

(** The document sent for a plugin that ended within [Exception]. *)
Definition reply_of (env : Env) (session : Session) (plugin_name : string)
    : VolatilityResponse :=
  let '(result_renderer, outcome) := plugin_result env session plugin_name in
  let error := match outcome with Ok _ => "" | Raise e => exc_str e end in
  if nonempty error then set_error error (GetResponse result_renderer)
  else GetResponse result_renderer.

(** The three events of one turn of the loop. *)
Definition turn (env : Env) (session : Session) (plugin_name : string) : list Event :=
  [Progress ("Running plugin " +:+ plugin_name);
   Invoke plugin_name;
   SendReply (reply_of env session plugin_name)].



Definition int_returns_or_is_caught (o : BaseObject) : bool :=
  match obj_int o with Ok _ => true | Raise e => AttributeError_or_ValueError e end.


(** The values [AddValue] makes of the arguments of one call, and whether it
    makes them without raising. *)
Definition coerce_all (args : list PyValue) : list VolatilityValue :=
  (for_each args AddValue []).1.

Definition coercible (args : list PyValue) : bool :=
  match (for_each args AddValue []).2 with Ok _ => true | Raise _ => false end.

(** The two writes of the spec's ResultBuilder. *)
Inductive Write :=
| addRow (values : list PyValue)
| writeText (template : string) (args : list PyValue).

Definition write_call (w : Write) : RenderCall :=
  match w with
  | addRow values => CallTableRow values
  | writeText template args => CallFormat template args
  end.

Definition write_mode (w : Write) : Modes :=
  match w with addRow _ => TABLE | writeText _ _ => STRING end.

Definition write_args (w : Write) : list PyValue :=
  match w with addRow values => values | writeText _ args => args end.

(** The maximal runs of writes of one mode, in order. *)
Fixpoint runs (ws : list Write) : list (Modes * list Write) :=
  match ws with
  | [] => []
  | w :: ws' =>
      match runs ws' with
      | (m, r) :: rs =>
          if decide (write_mode w = m) then (m, w :: r) :: rs
          else (write_mode w, [w]) :: (m, r) :: rs
      | [] => [(write_mode w, [w])]
      end
  end.

(** The runs after one more write: it joins the last run when that has its
    mode, and starts a run otherwise. *)
Definition snoc_run (rs : list (Modes * list Write)) (w : Write)
    : list (Modes * list Write) :=
  match last rs with
  | Some (m, r) =>
      if decide (write_mode w = m)
      then take (pred (length rs)) rs ++ [(m, r ++ [w])]
      else rs ++ [(write_mode w, [w])]
  | None => [(write_mode w, [w])]
  end.

Definition row_of (w : Write) : option (list VolatilityValue) :=
  match w with addRow values => Some (coerce_all values) | writeText _ _ => None end.

Definition entry_of (w : Write) : option FormattedValue :=
  match w with
  | writeText template args => Some {| formatstring := template; data := coerce_all args |}
  | addRow _ => None
  end.

(** The section that holds exactly the writes of one run: their rows, or
    their text entries. *)
Definition section_of_run (run : Modes * list Write) : Section :=
  {| table := {| headers := []; rows := omap row_of run.2 |};
     formatted_values := omap entry_of run.2 |}.

(** The renderer after the writes that make up the runs [rs]. *)
Definition renderer_after (rs : list (Modes * list Write)) : ProtobufRenderer :=
  {| response := {| plugin := None; error := None; sections := section_of_run <$> rs |};
     active_section := match rs with [] => None | _ => Some (pred (length rs)) end;
     mode := fst <$> last rs |}.

Definition is_writeText (w : Write) : bool :=
  match w with writeText _ _ => true | addRow _ => false end.

(** The text entry of a [writeText]: the template as it was given, and the
    coerced arguments. *)
Definition text_entry (w : Write) : FormattedValue :=
  {| formatstring := match w with writeText template _ => template | addRow _ => "" end;
     data := coerce_all (write_args w) |}.

(** Three lines of text, a table row, and a line of text. *)
Definition example_writes : list Write :=
  [writeText "Offset %s" [PyInt 4096]; writeText "Name %s" [PyStr "System"];
   writeText "" []; addRow [PyInt 4; PyBool true]; writeText "end" []].

(** Reading [fhandle.cr3] gives the base, or the handle has no such
    attribute. *)
Definition cr3_read_or_absent (fh : FHandle) : bool :=
  match cr3 fh with Ok _ => true | Raise e => is_AttributeError e end.

(** The attributes of a session under construction when its profile is
    guessed. *)
Definition session_before_guess (fh : FHandle) : Session :=
  let s := <["progress" := AProgress]> (<["fhandle" := AHandle fh]> {["plugins" := APlugins]}) in
  match cr3 fh with
  | Ok dtb => <["dtb" := AValue (PyInt dtb)]> s
  | Raise _ => s
  end.

(** Guessing gives no profile: the platform is not Windows, or the engine
    has no [guess_profile] plugin, or the guess is empty. *)
Definition no_profile_guessed (env : Env) (session : Session) : bool :=
  if String.prefix "win" (platform env) then
    match guess_profile env session with
    | Ok p => negb (truthy_value p)
    | Raise e => is_AttributeError e
    end
  else true.


(** How many entries the cache has for a key. *)
Definition entries_for (key : string) (w : World) : nat :=
  length (filter (λ e, e.1 = key) (entries (SESSION_CACHE w))).

(** ** Inputs used in examples *)

Definition no_attribute (name : string) : PyExc :=
  {| exc_class := AttributeError; exc_str := name |}.

(** A driver handle without [cr3], on a platform without profile guessing. *)
Definition plain_handle : FHandle := {| cr3 := Raise (no_attribute "cr3") |}.

(** Plugin "A" raises [AssertionError()], whose text is empty; every other
    plugin writes one line. *)
Definition env_A_fails_silently : Env :=
  {| platform := "linux2";
     VFSOpen := λ _, Ok plain_handle;
     guess_profile := λ _, Ok PyNone;
     run_plugin := λ _ plugin_name _,
       if decide (plugin_name = "A")
       then ([], Some {| exc_class := AssertionError; exc_str := "" |})
       else ([CallWrite "done"], None) |}.

(** Plugin "A" raises with a message. *)
Definition env_A_fails : Env :=
  {| platform := "linux2";
     VFSOpen := λ _, Ok plain_handle;
     guess_profile := λ _, Ok PyNone;
     run_plugin := λ _ plugin_name _,
       if decide (plugin_name = "A")
       then ([], Some {| exc_class := IOError; exc_str := "cannot read" |})
       else ([CallWrite "done"], None) |}.

(** The target cannot be opened. *)
Definition env_open_fails : Env :=
  {| platform := "linux2";
     VFSOpen := λ _, Raise {| exc_class := IOError; exc_str := "cannot open" |};
     guess_profile := λ _, Ok PyNone;
     run_plugin := λ _ _ _, ([], None) |}.

(** On Windows, with a profile guesser that fails to read the image. *)
Definition env_guess_fails : Env :=
  {| platform := "win32";
     VFSOpen := λ _, Ok plain_handle;
     guess_profile := λ _, Raise {| exc_class := IOError; exc_str := "cannot read" |};
     run_plugin := λ _ _ _, ([], None) |}.

(** On Windows, with an engine that has no [guess_profile] plugin. *)
Definition env_no_guess_plugin : Env :=
  {| platform := "win32";
     VFSOpen := λ _, Ok plain_handle;
     guess_profile := λ _, Raise (no_attribute "guess_profile");
     run_plugin := λ _ _ _, ([], None) |}.

Definition request_A_B : VolatilityRequest :=
  {| device := {| path := "/dev/pmem" |}; args_dict := ∅; plugins := ["A"; "B"] |}.

Definition request_progress_override : VolatilityRequest :=
  {| device := {| path := "/dev/pmem" |};
     args_dict := {[ "progress" := PyInt 1 ]};
     plugins := ["B"] |}.



(** An object on which both text conversions raise [ValueError]. *)
Definition object_without_text : BaseObject :=
  {| obj_type := "ptr"; obj_name := "next"; obj_offset := 16; obj_vm := "vm";
     obj_int := Ok 5;
     obj_unicode := Raise {| exc_class := ValueError; exc_str := "invalid" |};
     obj_str := Raise {| exc_class := ValueError; exc_str := "invalid" |} |}.

(** ** [UnicodeStringIO] *)

(** [self.data], a text. *)
Record UnicodeStringIO := { io_data : string }.

(** [UnicodeStringIO.__init__] *)
Definition UnicodeStringIO_init : UnicodeStringIO := {| io_data := "" |}.

(** [UnicodeStringIO.write] *)
Definition UnicodeStringIO_write (data_arg : string) : M UnicodeStringIO unit :=
  modify (λ self, {| io_data := io_data self +:+ SmartUnicode data_arg |}).

(** [UnicodeStringIO.getvalue] *)
Definition UnicodeStringIO_getvalue (self : UnicodeStringIO) : string := io_data self.

(** ** Further notions *)

(** The header message [table_header] makes of one item of its list. *)
Definition header_of (item : string * string * string) : Header :=
  {| h_print_name := item.1.1; h_name := item.1.2; h_format_hint := item.2 |}.

(** [active_section], when it is set, refers to the last section of the
    response, and a mode is set then. *)
Definition active_is_last (self : ProtobufRenderer) : Prop :=
  match active_section self with
  | None => True
  | Some i => S i = length (sections (response self)) ∧ is_Some (mode self)
  end.

Definition is_CallStart (c : RenderCall) : bool :=
  match c with CallStart _ => true | _ => false end.

(** A call of [table_header] with a list, or of [table_row] with arguments
    that [AddValue] accepts; the headers and the row such a call adds. *)
Definition is_table_call (c : RenderCall) : bool :=
  match c with
  | CallTableHeader (Some _) => true
  | CallTableRow args => coercible args
  | _ => false
  end.

Definition table_call_headers (c : RenderCall) : list Header :=
  match c with
  | CallTableHeader (Some l) => header_of <$> l
  | _ => []
  end.

Definition table_call_rows (c : RenderCall) : list (list VolatilityValue) :=
  match c with
  | CallTableRow args => [coerce_all args]
  | _ => []
  end.


(** The text of a reply's error for the way the [try] block ended. *)
Definition error_of (outcome : PyResult unit) : option string :=
  match outcome with
  | Ok _ => None
  | Raise e => if nonempty (exc_str e) then Some (exc_str e) else None
  end.

(** Arguments for examples: the third is an object whose text cannot be
    obtained. *)
Definition example_row_args : list PyValue :=
  [PyInt 4; PyStr "System"; PyBaseObject object_without_text; PyInt 7].

(** A table section with more headers and rows. *)
Definition extend_table (s : Section) (hs : list Header)
    (rs : list (list VolatilityValue)) : Section :=
  {| table := {| headers := headers (table s) ++ hs; rows := rows (table s) ++ rs |};
     formatted_values := formatted_values s |}.

(** A renderer whose only section is an active table section. *)
Definition one_table (s : Section) : ProtobufRenderer :=
  {| response := {| plugin := None; error := None; sections := [s] |};
     active_section := Some 0%nat;
     mode := Some TABLE |}.

(** Calls for examples: a line of text, a table with two headers given in
    two calls and two rows, the end of the section, and a line of text. *)
Definition example_table_calls : list RenderCall :=
  [CallTableHeader (Some [("Offset", "offset", "x")]);
   CallTableHeader (Some [("Name", "name", "s")]);
   CallTableRow [PyInt 4096; PyStr "System"];
   CallTableRow [PyInt 8192; PyStr "smss.exe"]].

(** Plugin "A" writes a row and then ends with [KeyboardInterrupt]; every
    other plugin writes one line. *)
Definition env_A_interrupted : Env :=
  {| platform := "linux2";
     VFSOpen := λ _, Ok plain_handle;
     guess_profile := λ _, Ok PyNone;
     run_plugin := λ _ plugin_name _,
       if decide (plugin_name = "A")
       then ([CallTableRow [PyInt 1]],
             Some {| exc_class := KeyboardInterrupt; exc_str := "" |})
       else ([CallWrite "done"], None) |}.

(** Plugin "A" writes a row and then raises with a message. *)
Definition env_A_fails_late : Env :=
  {| platform := "linux2";
     VFSOpen := λ _, Ok plain_handle;
     guess_profile := λ _, Ok PyNone;
     run_plugin := λ _ plugin_name _,
       if decide (plugin_name = "A")
       then ([CallTableRow [PyInt 1]],
             Some {| exc_class := IOError; exc_str := "cannot read" |})
       else ([CallWrite "done"], None) |}.


(** The values a call hands to [AddValue], and the calls that cannot raise
    for another reason: all but [table_header] without a list. *)
Definition call_values (c : RenderCall) : list PyValue :=
  match c with
  | CallFormat _ args => args
  | CallTableRow args => args
  | _ => []
  end.

Definition call_is_safe (c : RenderCall) : bool :=
  match c with
  | CallTableHeader None => false
  | _ => coercible (call_values c)
  end.

(** Calls for examples: every method of the renderer once, with values that
    [AddValue] accepts. *)
Definition example_safe_calls : list RenderCall :=
  [CallStart (Some "pslist"); CallWrite "Processes";
   CallTableHeader (Some [("Offset", "offset", "x")]);
   CallTableRow [PyInt 4096; PyBool true]; CallSection;
   CallFormat "%s done" [PyStr "pslist"]; CallFlush; CallEnd].

(** * Properties *)

Ltac unfold_M :=
  unfold bind, ret, raise, get, modify, call, try_except in *.

(** ** Running the monad *)

Lemma bind_ok {St A B} (m : M St A) (k : A → M St B) (s s' : St) (a : A) :
  m s = (s', Ok a) → bind m k s = k a s'.
Proof. unfold bind. by intros ->. Qed.

Lemma bind_raise {St A B} (m : M St A) (k : A → M St B) (s s' : St) (e : PyExc) :
  m s = (s', Raise e) → bind m k s = (s', Raise e).
Proof. unfold bind. by intros ->. Qed.

Lemma try_except_ok {St A} (m : M St A) (catches : PyExc → bool)
    (handler : PyExc → M St A) (s s' : St) (a : A) :
  m s = (s', Ok a) → try_except m catches handler s = (s', Ok a).
Proof. unfold try_except. by intros ->. Qed.

Lemma try_except_caught {St A} (m : M St A) (catches : PyExc → bool)
    (handler : PyExc → M St A) (s s' : St) (e : PyExc) :
  m s = (s', Raise e) → catches e = true →
  try_except m catches handler s = handler e s'.
Proof. unfold try_except. by intros -> ->. Qed.

Lemma try_except_uncaught {St A} (m : M St A) (catches : PyExc → bool)
    (handler : PyExc → M St A) (s s' : St) (e : PyExc) :
  m s = (s', Raise e) → catches e = false →
  try_except m catches handler s = (s', Raise e).
Proof. unfold try_except. by intros -> ->. Qed.

Lemma for_each_app {St A} (l1 l2 : list A) (body : A → M St unit) (s : St) :
  for_each (l1 ++ l2) body s = (do _ <- for_each l1 body ; for_each l2 body) s.
Proof.
  revert s. induction l1 as [| x l1 IH]; intros s; simpl; [done |].
  unfold bind in *. destruct (body x s) as [s' [[] | e]]; [| done].
  by rewrite IH.
Qed.

(** ** Value coercion *)

Lemma AddValue_response_row (value : PyValue) (row : list VolatilityValue) :
  AddValue value row =
    (row ++ [(AddValue_response value new_value).1], (AddValue_response value new_value).2).
Proof. unfold AddValue. by destruct (AddValue_response value new_value). Qed.

(** C2, at an object on which [__unicode__()] and [__str__()] both raise
    [ValueError]: the two handlers leave [string_value] unbound, so the test
    [if string_value:] raises [UnboundLocalError] and [AddValue] fails,
    leaving a half filled value in the row. Coercion is not total on
    structured objects whose textual rendering raises. *)
Theorem AddValue_raises_without_text :
  AddValue (PyBaseObject object_without_text) [] =
    ([{| v_type := Some "ptr"; v_name := Some "next"; v_offset := Some 16;
         v_vm := Some "vm"; v_value := Some 5; v_svalue := None; v_reason := None |}],
     Raise {| exc_class := UnboundLocalError;
              exc_str := "local variable 'string_value' referenced before assignment" |}).
Proof. reflexivity. Qed.

(** The same for every structured object whose integer conversion returns
    or raises a caught class and whose two text conversions raise caught
    classes. *)
Lemma AddValue_unbound_string_value (o : BaseObject) (e1 e2 : PyExc)
    (row : list VolatilityValue) :
  int_returns_or_is_caught o = true →
  obj_unicode o = Raise e1 → AttributeError_or_ValueError e1 = true →
  obj_str o = Raise e2 → AttributeError_or_ValueError e2 = true →
  ∃ e, (AddValue (PyBaseObject o) row).2 = Raise e ∧ exc_class e = UnboundLocalError.
Proof.
  intros Hint Hu He1 Hs He2. rewrite AddValue_response_row.
  destruct o as [ty nm off vm oint ouni ostr]. simpl in *. subst ouni ostr.
  unfold int_returns_or_is_caught in Hint. simpl in Hint.
  unfold_M. simpl.
  destruct oint as [z | e]; simpl; rewrite ?Hint, He1, He2; simpl; by eexists.
Qed.

(** On every value that is not a structured object, [AddValue] returns. *)
Lemma AddValue_total_on_plain_values (value : PyValue) (row : list VolatilityValue) :
  (∀ o, value ≠ PyBaseObject o) →
  (AddValue value row).2 = Ok tt.
Proof.
  intros Hplain. rewrite AddValue_response_row. simpl.
  destruct value as [| b | z | s | o | c r | t]; try reflexivity.
  by destruct (Hplain o).
Qed.

(** C4: for every boolean, [AddValue] returns and appends a value whose only
    field is [svalue], the text True or False, which is not empty; the
    integer field [value] stays unset, although the boolean also passes the
    test for [int]. *)
Theorem AddValue_bool (b : bool) (row : list VolatilityValue) :
  isinstance_int_long (PyBool b) = true ∧
  nonempty (if b then "True" else "False") = true ∧
  AddValue (PyBool b) row =
    (row ++ [{| v_type := None; v_name := None; v_offset := None; v_vm := None;
                v_value := None;
                v_svalue := Some (if b then "True" else "False");
                v_reason := None |}],
     Ok tt).
Proof. by destruct b. Qed.





(** ** The section state machine *)

Lemma snoc_run_app (rs : list (Modes * list Write)) (m : Modes) (r : list Write)
    (w : Write) :
  snoc_run (rs ++ [(m, r)]) w =
    if decide (write_mode w = m) then rs ++ [(m, r ++ [w])]
    else rs ++ [(m, r); (write_mode w, [w])].
Proof.
  unfold snoc_run. rewrite last_snoc, length_app. simpl.
  replace (pred (length rs + 1)) with (length rs) by lia.
  rewrite take_app_length. case_decide; [done |]. by rewrite <- app_assoc.
Qed.

Lemma runs_cons_snoc (a : Write) (rs : list (Modes * list Write)) (w : Write) :
  rs ≠ [] →
  match snoc_run rs w with
  | (m, r) :: rs' =>
      if decide (write_mode a = m) then (m, a :: r) :: rs'
      else (write_mode a, [a]) :: (m, r) :: rs'
  | [] => [(write_mode a, [a])]
  end =
  snoc_run (match rs with
            | (m, r) :: rs' =>
                if decide (write_mode a = m) then (m, a :: r) :: rs'
                else (write_mode a, [a]) :: (m, r) :: rs'
            | [] => [(write_mode a, [a])]
            end) w.
Proof.
  intros Hne. destruct rs as [| [m r] rs _] using rev_ind; [done |].
  rewrite snoc_run_app. destruct rs as [| [m0 r0] rs]; simpl.
  - pose proof (snoc_run_app [] m (a :: r) w) as H1.
    pose proof (snoc_run_app [(write_mode a, [a])] m r w) as H2.
    simpl in H1, H2.
    destruct (decide (write_mode w = m)) as [Hw | Hw];
      destruct (decide (write_mode a = m)) as [Ha | Ha]; simpl;
      rewrite ?decide_True, ?decide_False by done; by rewrite ?H1, ?H2.
  - pose proof (snoc_run_app ((m0, a :: r0) :: rs) m r w) as H1.
    pose proof (snoc_run_app ((write_mode a, [a]) :: (m0, r0) :: rs) m r w) as H2.
    simpl in H1, H2.
    destruct (decide (write_mode w = m)) as [Hw | Hw];
      destruct (decide (write_mode a = m0)) as [Ha | Ha]; simpl;
      rewrite ?decide_True, ?decide_False by done; by rewrite ?H1, ?H2.
Qed.

Lemma runs_nil_inv (ws : list Write) : runs ws = [] → ws = [].
Proof.
  destruct ws as [| w ws]; [done |]. simpl.
  destruct (runs ws) as [| [m r] rs]; [done |]. by case_decide.
Qed.

Lemma runs_snoc (ws : list Write) (w : Write) :
  runs (ws ++ [w]) = snoc_run (runs ws) w.
Proof.
  induction ws as [| a ws IH]; [done |].
  simpl. rewrite IH. destruct ws as [| b ws].
  - unfold snoc_run. simpl. repeat case_decide; simpl; congruence.
  - apply runs_cons_snoc. intros Hnil. by apply runs_nil_inv in Hnil.
Qed.

Lemma alter_at_length {A} (f : A → A) (l : list A) (x : A) :
  alter f (length l) (l ++ [x]) = l ++ [f x].
Proof. induction l as [| y l IH]; [done |]. simpl. by rewrite <- IH. Qed.

Lemma renderer_after_snoc (rs : list (Modes * list Write)) (x : Modes * list Write) :
  renderer_after (rs ++ [x]) =
    {| response := {| plugin := None; error := None;
                      sections := (section_of_run <$> rs) ++ [section_of_run x] |};
       active_section := Some (length rs);
       mode := Some x.1 |}.
Proof.
  unfold renderer_after. rewrite last_snoc, fmap_app, length_app. simpl.
  replace (pred (length rs + 1)) with (length rs) by lia.
  by destruct rs.
Qed.

Lemma section_of_run_snoc (m : Modes) (r : list Write) (w : Write) :
  section_of_run (m, r ++ [w]) =
    match w with
    | addRow values => add_row (coerce_all values) (section_of_run (m, r))
    | writeText template args =>
        add_formatted_value {| formatstring := template; data := coerce_all args |}
          (section_of_run (m, r))
    end.
Proof.
  unfold section_of_run, add_row, add_formatted_value. simpl.
  rewrite !omap_app. destruct w; simpl; by rewrite ?app_nil_r.
Qed.

Lemma coercible_result (args : list PyValue) :
  coercible args = true →
  for_each args AddValue [] = (coerce_all args, Ok tt).
Proof.
  unfold coercible, coerce_all.
  destruct (for_each args AddValue []) as [vs [[] | e]]; done.
Qed.

(** One write takes the renderer of the runs so far to the renderer of the
    runs with that write. *)
Lemma render_write_step (rs : list (Modes * list Write)) (w : Write) :
  coercible (write_args w) = true →
  render_call (write_call w) (renderer_after rs) = (renderer_after (snoc_run rs w), Ok tt).
Proof.
  intros Hc. apply coercible_result in Hc.
  destruct rs as [| [m r] rs _] using rev_ind.
  - change (snoc_run [] w) with ([] ++ [(write_mode w, [w])]).
    rewrite renderer_after_snoc.
    destruct w as [values | template args]; simpl in *;
      unfold table_row, format, InitSection; unfold_M; simpl; by rewrite Hc.
  - rewrite snoc_run_app, renderer_after_snoc.
    destruct (decide (write_mode w = m)) as [<- | Hne].
    + rewrite renderer_after_snoc, section_of_run_snoc.
      destruct w as [values | template args]; simpl in *;
        unfold table_row, format, InitSection; unfold_M; simpl; rewrite Hc;
        unfold on_active_section, set_response, set_sections; simpl;
        rewrite <- (length_fmap section_of_run rs) at 1;
        by rewrite alter_at_length.
    + rewrite (app_assoc rs [(m, r)] [(write_mode w, [w])] : rs ++ [(m, r); (write_mode w, [w])] = _).
      rewrite renderer_after_snoc, fmap_app, length_app. simpl.
      destruct w as [values | template args]; destruct m; try done; simpl in *;
        unfold table_row, format, InitSection; unfold_M; simpl; rewrite Hc;
        unfold on_active_section, set_response, set_sections, add_section; simpl;
        by rewrite alter_at_length, length_app, length_fmap.
Qed.

Lemma render_writes (ws : list Write) :
  forallb (λ w, coercible (write_args w)) ws = true →
  for_each (write_call <$> ws) render_call ProtobufRenderer_init =
    (renderer_after (runs ws), Ok tt).
Proof.
  induction ws as [| w ws IH] using rev_ind; [done |].
  rewrite forallb_app. simpl. rewrite andb_true_r.
  intros [Hws Hw]%andb_prop. rewrite fmap_app, for_each_app. unfold bind.
  rewrite (IH Hws), runs_snoc. simpl. unfold bind.
  by rewrite (render_write_step _ _ Hw).
Qed.

Lemma runs_concat (ws : list Write) : concat (runs ws).*2 = ws.
Proof.
  induction ws as [| w ws IH]; [done |]. simpl.
  destruct (runs ws) as [| [m r] rs]; simpl in *; [by rewrite <- IH |].
  case_decide; simpl; by rewrite <- IH.
Qed.

Lemma runs_uniform (ws : list Write) :
  Forall (λ run, run.2 ≠ [] ∧ Forall (λ w, write_mode w = run.1) run.2) (runs ws).
Proof.
  induction ws as [| w ws IH]; [by constructor |]. simpl.
  destruct (runs ws) as [| [m r] rs]; simpl in *.
  - repeat constructor; done.
  - apply Forall_cons in IH as [[Hr Hm] Hrs]. simpl in *.
    case_decide; repeat constructor; simpl; try done.
Qed.

Lemma runs_alternate (ws : list Write) (i : nat) (m1 m2 : Modes) :
  (runs ws).*1 !! i = Some m1 → (runs ws).*1 !! S i = Some m2 → m1 ≠ m2.
Proof.
  revert i. induction ws as [| w ws IH]; intros i; [done |]. simpl.
  destruct (runs ws) as [| [m r] rs]; simpl in *; [done |].
  case_decide as Hw; simpl; [apply (IH i) |].
  destruct i as [| i]; simpl; [| apply (IH i)].
  intros [= <-] [= <-]. done.
Qed.

Lemma runs_text_only (ws : list Write) :
  ws ≠ [] → forallb is_writeText ws = true → runs ws = [(STRING, ws)].
Proof.
  induction ws as [| w ws IH]; [done |]. intros _. simpl.
  intros [Hw Hws]%andb_prop. destruct w as [| template args]; [done |].
  destruct ws as [| w' ws]; [done |].
  by rewrite IH.
Qed.

Lemma text_entries (ws : list Write) :
  forallb is_writeText ws = true →
  omap row_of ws = [] ∧ omap entry_of ws = text_entry <$> ws.
Proof.
  induction ws as [| w ws IH]; [done |]. simpl.
  intros [Hw Hws]%andb_prop. destruct (IH Hws) as [IH1 IH2].
  destruct w as [| template args]; [done |]. simpl.
  split; [exact IH1 | f_equal; exact IH2].
Qed.

(** C5: from a fresh renderer, a sequence of [addRow] and [writeText] calls
    whose arguments [AddValue] accepts returns and leaves one section per
    maximal run of calls of one mode, in order, each holding exactly the rows
    or the text entries of its run; consecutive sections differ in mode; and
    when the sequence is not empty and has only [writeText] calls, there is
    exactly one section, with no row and with the entries in call order. *)
Theorem ProtobufRenderer_sections_are_runs (ws : list Write) :
  forallb (λ w, coercible (write_args w)) ws = true →
  ∃ self,
    for_each (write_call <$> ws) render_call ProtobufRenderer_init = (self, Ok tt) ∧
    sections (response self) = section_of_run <$> runs ws ∧
    concat (runs ws).*2 = ws ∧
    Forall (λ run, run.2 ≠ [] ∧ Forall (λ w, write_mode w = run.1) run.2) (runs ws) ∧
    (∀ i m1 m2, (runs ws).*1 !! i = Some m1 → (runs ws).*1 !! S i = Some m2 → m1 ≠ m2) ∧
    (ws ≠ [] → forallb is_writeText ws = true →
     sections (response self) =
       [{| table := {| headers := []; rows := [] |};
           formatted_values := text_entry <$> ws |}]).
Proof.
  intros Hc. exists (renderer_after (runs ws)).
  split; [by apply render_writes |].
  split; [done |].
  split; [apply runs_concat |].
  split; [apply runs_uniform |].
  split; [apply runs_alternate |].
  intros Hne Htext. simpl. rewrite (runs_text_only ws Hne Htext). simpl.
  unfold section_of_run. simpl. by destruct (text_entries ws Htext) as [-> ->].
Qed.

(** C5 at three lines of text, a table row and a line of text: three
    sections. *)
Lemma ProtobufRenderer_sections_are_runs_witness :
  forallb (λ w, coercible (write_args w)) example_writes = true ∧
  ∃ self,
    for_each (write_call <$> example_writes) render_call ProtobufRenderer_init
      = (self, Ok tt) ∧
    sections (response self) = section_of_run <$> runs example_writes ∧
    length (runs example_writes) = 3%nat.
Proof.
  split; [reflexivity |].
  destruct (ProtobufRenderer_sections_are_runs example_writes) as (self & Hrun & Hsec & _);
    [reflexivity |].
  exists self. split; [exact Hrun |]. split; [exact Hsec | reflexivity].
Defined.

(** ** The session cache *)

Lemma assoc_remove (key : string) (l : list (string * nat)) :
  assoc key (store_remove key l) = None.
Proof.
  unfold store_remove. induction l as [| [k obj] l IH]; [done |].
  rewrite filter_cons. simpl. case_decide as Hk; [| done].
  simpl. by rewrite decide_False.
Qed.

Lemma filter_key_remove (key : string) (l : list (string * nat)) :
  filter (λ e, e.1 = key) (store_remove key l) = [].
Proof.
  unfold store_remove. induction l as [| [k obj] l IH]; [done |].
  rewrite filter_cons. simpl. case_decide as Hk; [| done].
  rewrite filter_cons. simpl. by rewrite decide_False.
Qed.

Lemma FastStore_Get_miss (key : string) (st : FastStore) :
  store_lookup key st = None →
  FastStore_Get key st = (Raise {| exc_class := KeyError; exc_str := key |}, st).
Proof. unfold FastStore_Get. by intros ->. Qed.

Lemma FastStore_Get_hit (key : string) (obj : nat) (st : FastStore) :
  store_lookup key st = Some obj →
  FastStore_Get key st =
    (Ok obj, {| max_size := max_size st;
                entries := (key, obj) :: store_remove key (entries st) |}).
Proof. unfold FastStore_Get. by intros ->. Qed.

Lemma store_lookup_Put (key : string) (obj : nat) (st : FastStore) :
  (0 < max_size st)%nat →
  store_lookup key (FastStore_Put key obj st) = Some obj.
Proof.
  unfold store_lookup, FastStore_Put. simpl. intros Hsize.
  destruct (max_size st) as [| n]; [lia |]. simpl. by rewrite decide_True.
Qed.

Lemma Run_session_hit (env : Env) (args : VolatilityRequest) (w : World) (obj : nat) :
  store_lookup (path (device args)) (SESSION_CACHE w) = Some obj →
  Run_session env args w =
    ({| heap := heap w;
        SESSION_CACHE :=
          {| max_size := max_size (SESSION_CACHE w);
             entries := (path (device args), obj)
                          :: store_remove (path (device args)) (entries (SESSION_CACHE w)) |};
        log := log w |}, Ok obj).
Proof.
  intros Hhit. unfold Run_session, try_except, SESSION_CACHE_Get.
  by rewrite (FastStore_Get_hit _ _ _ Hhit).
Qed.

Lemma Run_session_miss (env : Env) (args : VolatilityRequest) (w : World) :
  store_lookup (path (device args)) (SESSION_CACHE w) = None →
  Run_session env args w = Run_build_session env args w.
Proof.
  intros Hmiss. unfold Run_session, try_except, SESSION_CACHE_Get.
  rewrite (FastStore_Get_miss _ _ Hmiss). simpl. by destruct w.
Qed.

(** Building a session: its attributes are set on the object just created,
    which is the last of the heap. *)
Lemma setattr_last (h : list Session) (s : Session) (c : FastStore) (l : list Event)
    (k : string) (v : AttrVal) :
  setattr (length h) k v {| heap := h ++ [s]; SESSION_CACHE := c; log := l |} =
    ({| heap := h ++ [<[k := v]> s]; SESSION_CACHE := c; log := l |}, Ok tt).
Proof. unfold setattr, modify, set_heap. simpl. by rewrite alter_at_length. Qed.

Lemma the_session_last (h : list Session) (s : Session) (c : FastStore) (l : list Event) :
  the_session (length h) {| heap := h ++ [s]; SESSION_CACHE := c; log := l |} = s.
Proof. unfold the_session. simpl. by rewrite list_lookup_middle. Qed.

(** What building a session does to the cache, the heap and the log. *)
Lemma Run_build_session_effect (env : Env) (args : VolatilityRequest) (w : World) :
  match Run_build_session env args w with
  | (w1, Ok obj) =>
      obj = length (heap w) ∧
      SESSION_CACHE w1 = FastStore_Put (path (device args)) obj (SESSION_CACHE w) ∧
      length (heap w1) = S (length (heap w)) ∧ log w1 = log w
  | (w1, Raise e) =>
      SESSION_CACHE w1 = SESSION_CACHE w ∧
      length (heap w1) = S (length (heap w)) ∧ log w1 = log w
  end.
Proof.
  destruct w as [h c l].
  unfold Run_build_session, new_Session, GuessProfile, getattr, setattr, SESSION_CACHE_Put.
  unfold_M.
  repeat (simpl; match goal with
    | |- context [VFSOpen ?e ?d] => destruct (VFSOpen e d)
    | |- context [cr3 ?f] => destruct (cr3 f)
    | |- context [is_AttributeError ?e] => destruct (is_AttributeError e)
    | |- context [String.prefix ?a ?b] => destruct (String.prefix a b)
    | |- context [guess_profile ?e ?s] => destruct (guess_profile e s)
    | |- context [negb (truthy ?x)] => destruct (negb (truthy x))
    end);
  simpl; rewrite ?length_alter, ?length_app; simpl; repeat split; try done; lia.
Qed.

(** A target that cannot be opened: the exception leaves the construction,
    after the session object was made. *)
Lemma Run_build_session_open_fails (env : Env) (args : VolatilityRequest) (w : World)
    (e : PyExc) :
  VFSOpen env (device args) = Raise e →
  Run_build_session env args w =
    (set_heap (heap w ++ [{[ "plugins" := APlugins ]}]) w, Raise e).
Proof.
  intros Hopen. unfold Run_build_session.
  erewrite bind_ok by reflexivity.
  apply bind_raise. unfold call. by rewrite Hopen.
Qed.

(** With room for one object, a session that [Run_session] returns is the
    one the cache holds for the device. *)
Lemma Run_session_cached (env : Env) (args : VolatilityRequest) (w w1 : World)
    (obj : nat) :
  (0 < max_size (SESSION_CACHE w))%nat →
  Run_session env args w = (w1, Ok obj) →
  store_lookup (path (device args)) (SESSION_CACHE w1) = Some obj ∧
  max_size (SESSION_CACHE w1) = max_size (SESSION_CACHE w).
Proof.
  intros Hsize Hrun.
  destruct (store_lookup (path (device args)) (SESSION_CACHE w)) as [obj' |] eqn:Hlook.
  - rewrite (Run_session_hit _ _ _ _ Hlook) in Hrun. injection Hrun as <- <-.
    unfold store_lookup. simpl. by rewrite decide_True.
  - rewrite (Run_session_miss _ _ _ Hlook) in Hrun.
    pose proof (Run_build_session_effect env args w) as Heff.
    rewrite Hrun in Heff. destruct Heff as (-> & -> & _ & _).
    split; [by apply store_lookup_Put | done].
Qed.

(** C6: when [Run] has obtained the session of a device, from the cache or by
    building it, and the cache has room for at least one object, the next
    call for the same device, whatever the engine and the platform do then,
    returns the same object and creates none; the cache then holds exactly
    one entry for the device. *)
Theorem Run_session_twice (env1 env2 : Env) (args1 args2 : VolatilityRequest)
    (w w1 : World) (obj : nat) :
  (0 < max_size (SESSION_CACHE w))%nat →
  path (device args2) = path (device args1) →
  Run_session env1 args1 w = (w1, Ok obj) →
  ∃ w2, Run_session env2 args2 w1 = (w2, Ok obj) ∧
        heap w2 = heap w1 ∧
        log w2 = log w1 ∧
        entries_for (path (device args1)) w2 = 1%nat.
Proof.
  intros Hsize Hpath Hrun.
  destruct (Run_session_cached _ _ _ _ _ Hsize Hrun) as [Hlook _].
  rewrite <- Hpath in Hlook. rewrite (Run_session_hit env2 _ _ _ Hlook).
  eexists. split; [done |]. split; [done |]. split; [done |].
  unfold entries_for. simpl. rewrite Hpath, filter_cons. simpl.
  rewrite decide_True by done. simpl. by rewrite filter_key_remove.
Qed.

(** C6 on a process that has run no action: the first call builds the
    session of the device, the second returns it, even though the target can
    no longer be opened. *)
Lemma Run_session_twice_witness :
  let w1 := (Run_session env_A_fails request_A_B (initial_world 1)).1 in
  Run_session env_A_fails request_A_B (initial_world 1) = (w1, Ok 0%nat) ∧
  ∃ w2, Run_session env_open_fails request_A_B w1 = (w2, Ok 0%nat) ∧
        heap w2 = heap w1 ∧
        log w2 = log w1 ∧
        entries_for "/dev/pmem" w2 = 1%nat.
Proof.
  intros w1. split; [reflexivity |].
  apply (Run_session_twice env_A_fails env_open_fails request_A_B request_A_B
           (initial_world 1) w1 0%nat); [simpl; lia | reflexivity | reflexivity].
Defined.

(** C7: when building the session fails, the exception leaves [Run], nothing
    is replied, the cache is as it was and has no entry for the device, and
    the next call for the device builds a session again. *)
Theorem Run_session_failure (env env2 : Env) (args : VolatilityRequest)
    (w w1 : World) (e : PyExc) :
  Run_session env args w = (w1, Raise e) →
  Run env args w = (w1, Raise e) ∧
  SESSION_CACHE w1 = SESSION_CACHE w ∧
  store_lookup (path (device args)) (SESSION_CACHE w1) = None ∧
  log w1 = log w ∧
  Run_session env2 args w1 = Run_build_session env2 args w1.
Proof.
  intros Hrun.
  split; [unfold Run, bind; by rewrite Hrun |].
  destruct (store_lookup (path (device args)) (SESSION_CACHE w)) as [obj |] eqn:Hlook.
  - by rewrite (Run_session_hit _ _ _ _ Hlook) in Hrun.
  - rewrite (Run_session_miss _ _ _ Hlook) in Hrun.
    pose proof (Run_build_session_effect env args w) as Heff.
    rewrite Hrun in Heff. destruct Heff as (Hcache & _ & Hlog).
    split; [done |]. rewrite Hcache. split; [done |]. split; [done |].
    apply Run_session_miss. by rewrite Hcache.
Qed.

(** C7 on a process that has run no action, for a target that cannot be
    opened at first: the second call builds a session, a new object. *)
Lemma Run_session_failure_witness :
  let e := {| exc_class := IOError; exc_str := "cannot open" |} in
  let w1 := (Run_session env_open_fails request_A_B (initial_world 1)).1 in
  Run_session env_open_fails request_A_B (initial_world 1) = (w1, Raise e) ∧
  Run env_open_fails request_A_B (initial_world 1) = (w1, Raise e) ∧
  SESSION_CACHE w1 = SESSION_CACHE (initial_world 1) ∧
  store_lookup "/dev/pmem" (SESSION_CACHE w1) = None ∧
  log w1 = [] ∧
  Run_session env_A_fails request_A_B w1 = Run_build_session env_A_fails request_A_B w1 ∧
  (Run_session env_A_fails request_A_B w1).2 = Ok 1%nat.
Proof.
  intros e w1. split; [reflexivity |].
  destruct (Run_session_failure env_open_fails env_A_fails request_A_B
              (initial_world 1) w1 e) as (H1 & H2 & H3 & H4 & H5); [reflexivity |].
  split; [exact H1 |]. split; [exact H2 |]. split; [exact H3 |]. split; [exact H4 |].
  split; [exact H5 | reflexivity].
Defined.

(** ** Building a session *)

Lemma getattr_last (h : list Session) (s : Session) (c : FastStore) (l : list Event)
    (k : string) :
  getattr (length h) k {| heap := h ++ [s]; SESSION_CACHE := c; log := l |} =
    ({| heap := h ++ [s]; SESSION_CACHE := c; log := l |},
     Ok (default (AValue PyNone) (s !! k))).
Proof. unfold getattr. by rewrite the_session_last. Qed.

(** Lines 194 to 204: the new session with its handle, its heartbeat and,
    when the handle has one, its page table base. *)
Lemma Run_build_session_dtb (h : list Session) (s : Session) (c : FastStore)
    (l : list Event) (fh : FHandle) :
  cr3_read_or_absent fh = true →
  try_except
    (do dtb <- call (cr3 fh) ; setattr (length h) "dtb" (AValue (PyInt dtb)))
    is_AttributeError (λ _, ret tt)
    {| heap := h ++ [s]; SESSION_CACHE := c; log := l |} =
  ({| heap := h ++ [match cr3 fh with
                    | Ok dtb => <["dtb" := AValue (PyInt dtb)]> s
                    | Raise _ => s
                    end];
      SESSION_CACHE := c; log := l |}, Ok tt).
Proof.
  unfold cr3_read_or_absent. intros Hcr3. destruct (cr3 fh) as [dtb | e].
  - apply try_except_ok. erewrite bind_ok by reflexivity. apply setattr_last.
  - erewrite try_except_caught; [reflexivity | reflexivity | exact Hcr3].
Qed.

(** Lines 206 to 210, when guessing gives no profile. *)
Lemma Run_build_session_guess (env : Env) (h : list Session) (s : Session)
    (c : FastStore) (l : list Event) :
  no_profile_guessed env s = true →
  s !! "profile" = None →
  ∃ s', try_except
          (do p <- GuessProfile env (length h) ;
           setattr (length h) "profile" (AValue p))
          is_AttributeError (λ _, ret tt)
          {| heap := h ++ [s]; SESSION_CACHE := c; log := l |} =
        ({| heap := h ++ [s']; SESSION_CACHE := c; log := l |}, Ok tt) ∧
        truthy (default (AValue PyNone) (s' !! "profile")) = false.
Proof.
  unfold no_profile_guessed, GuessProfile. intros Hguess Hnone.
  destruct (String.prefix "win" (platform env)).
  - destruct (guess_profile env s) as [p | e] eqn:Hg.
    + exists (<["profile" := AValue p]> s). split.
      * apply try_except_ok. erewrite bind_ok; [apply setattr_last |].
        erewrite bind_ok by reflexivity. unfold call. simpl.
        by rewrite the_session_last, Hg.
      * rewrite lookup_insert_eq. simpl. by apply negb_true_iff.
    + exists s. split; [| by rewrite Hnone].
      erewrite try_except_caught; [reflexivity | | exact Hguess].
      apply bind_raise. erewrite bind_ok by reflexivity. unfold call. simpl.
      by rewrite the_session_last, Hg.
  - exists (<["profile" := AValue PyNone]> s). split.
    + apply try_except_ok. erewrite bind_ok by reflexivity. apply setattr_last.
    + by rewrite lookup_insert_eq.
Qed.

Lemma session_before_guess_no_profile (fh : FHandle) :
  session_before_guess fh !! "profile" = None.
Proof. unfold session_before_guess. by destruct (cr3 fh). Qed.

Lemma Run_build_session_default_profile (env : Env) (args : VolatilityRequest)
    (w : World) (fh : FHandle) :
  VFSOpen env (device args) = Ok fh →
  cr3_read_or_absent fh = true →
  no_profile_guessed env (session_before_guess fh) = true →
  ∃ s, Run_build_session env args w =
         ({| heap := heap w ++ [<["profile" := AValue (PyStr "Win7SP1x64")]> s];
             SESSION_CACHE :=
               FastStore_Put (path (device args)) (length (heap w)) (SESSION_CACHE w);
             log := log w |}, Ok (length (heap w))).
Proof.
  destruct w as [h c l]. intros Hopen Hcr3 Hguess. simpl.
  destruct (Run_build_session_guess env h (session_before_guess fh) c l Hguess
              (session_before_guess_no_profile fh)) as (s & Hstep & Hfalsy).
  exists s. unfold Run_build_session.
  erewrite bind_ok by reflexivity.
  erewrite bind_ok by (unfold call; rewrite Hopen; reflexivity).
  erewrite bind_ok by apply setattr_last.
  erewrite bind_ok by apply setattr_last.
  erewrite bind_ok by (by apply Run_build_session_dtb).
  erewrite bind_ok by exact Hstep.
  erewrite bind_ok by apply getattr_last.
  rewrite Hfalsy. simpl.
  erewrite bind_ok by apply setattr_last.
  erewrite bind_ok by reflexivity.
  reflexivity.
Qed.

(** On Windows, an exception of the guesser that is not an
    [AttributeError] leaves the construction, before the session is put in
    the cache. *)
Lemma Run_build_session_guess_raises (env : Env) (args : VolatilityRequest)
    (w : World) (fh : FHandle) (e : PyExc) :
  VFSOpen env (device args) = Ok fh →
  cr3_read_or_absent fh = true →
  String.prefix "win" (platform env) = true →
  guess_profile env (session_before_guess fh) = Raise e →
  is_AttributeError e = false →
  Run_build_session env args w =
    ({| heap := heap w ++ [session_before_guess fh];
        SESSION_CACHE := SESSION_CACHE w; log := log w |}, Raise e).
Proof.
  destruct w as [h c l]. intros Hopen Hcr3 Hwin Hguess Hclass. simpl.
  unfold Run_build_session.
  erewrite bind_ok by reflexivity.
  erewrite bind_ok by (unfold call; rewrite Hopen; reflexivity).
  erewrite bind_ok by apply setattr_last.
  erewrite bind_ok by apply setattr_last.
  erewrite bind_ok by (by apply Run_build_session_dtb).
  apply bind_raise. apply try_except_uncaught; [| exact Hclass].
  apply bind_raise. unfold GuessProfile. rewrite Hwin.
  erewrite bind_ok by reflexivity. unfold call. simpl.
  rewrite the_session_last. exact (f_equal (pair _) Hguess).
Qed.

(** C8, as stated, fails on Windows when the profile guesser raises an
    exception that is not an [AttributeError]: the exception leaves [Run]
    and no session is cached. *)
Lemma Run_session_guess_failure_surfaces :
  let w1 := (Run_session env_guess_fails request_A_B (initial_world 1)).1 in
  String.prefix "win" (platform env_guess_fails) = true ∧
  Run_session env_guess_fails request_A_B (initial_world 1) =
    (w1, Raise {| exc_class := IOError; exc_str := "cannot read" |}) ∧
  Run env_guess_fails request_A_B (initial_world 1) =
    (w1, Raise {| exc_class := IOError; exc_str := "cannot read" |}) ∧
  store_lookup "/dev/pmem" (SESSION_CACHE w1) = None.
Proof. intros w1. repeat split; reflexivity. Qed.

(** C8, amended: when the device has no cached session, the target opens,
    reading [cr3] returns or raises [AttributeError], and guessing gives no
    profile (the platform is not Windows, or the engine has no
    [guess_profile] plugin, or the guess is empty), [Run] obtains a new
    session whose profile is the text Win7SP1x64 and caches it; nothing is
    raised and nothing is logged. *)
Theorem Run_session_default_profile (env : Env) (args : VolatilityRequest)
    (w : World) (fh : FHandle) :
  store_lookup (path (device args)) (SESSION_CACHE w) = None →
  VFSOpen env (device args) = Ok fh →
  cr3_read_or_absent fh = true →
  no_profile_guessed env (session_before_guess fh) = true →
  ∃ w1, Run_session env args w = (w1, Ok (length (heap w))) ∧
        the_session (length (heap w)) w1 !! "profile"
          = Some (AValue (PyStr "Win7SP1x64")) ∧
        SESSION_CACHE w1 =
          FastStore_Put (path (device args)) (length (heap w)) (SESSION_CACHE w) ∧
        log w1 = log w.
Proof.
  intros Hmiss Hopen Hcr3 Hguess. rewrite (Run_session_miss _ _ _ Hmiss).
  destruct (Run_build_session_default_profile env args w fh Hopen Hcr3 Hguess)
    as (s & ->).
  eexists. split; [done |]. split; [| done].
  rewrite the_session_last. apply lookup_insert_eq.
Qed.

(** The amended C8 on Windows with an engine that has no [guess_profile]
    plugin. *)
Lemma Run_session_default_profile_witness :
  ∃ w1, Run_session env_no_guess_plugin request_A_B (initial_world 1) = (w1, Ok 0%nat) ∧
        the_session 0 w1 !! "profile" = Some (AValue (PyStr "Win7SP1x64")) ∧
        SESSION_CACHE w1 =
          FastStore_Put "/dev/pmem" 0 (SESSION_CACHE (initial_world 1)) ∧
        log w1 = [].
Proof.
  apply (Run_session_default_profile env_no_guess_plugin request_A_B (initial_world 1)
           plain_handle); reflexivity.
Defined.

(** ** The loop over the plugins *)

Section Loop.
Context (env : Env) (vol_session : nat).



(** The document of a plugin that raised carries the text of the
    exception, unless that text is empty. *)
Lemma reply_of_failure (session : Session) (plugin_name : string)
    (result_renderer : ProtobufRenderer) (e : PyExc) :
  plugin_result env session plugin_name = (result_renderer, Raise e) →
  reply_of env session plugin_name =
    if nonempty (exc_str e) then set_error (exc_str e) (response result_renderer)
    else response result_renderer.
Proof. unfold reply_of. by intros ->. Qed.

(** A turn of the loop for a plugin that ends within [Exception], on a
    session whose [progress] is the closure of [Run]. *)
Lemma Run_plugin_turn (plugin_name : string) (w : World) :
  the_session vol_session w !! "progress" = Some AProgress →
  ends_within_Exception env (the_session vol_session w) plugin_name = true →
  Run_plugin env vol_session plugin_name w =
    ({| heap := heap w; SESSION_CACHE := SESSION_CACHE w;
        log := log w ++ turn env (the_session vol_session w) plugin_name |}, Ok tt).
Proof.
  intros Hprogress Hends.
  unfold Run_plugin, getattr, call_progress, emit. unfold_M. simpl.
  rewrite Hprogress. simpl.
  unfold ends_within_Exception, turn, reply_of in *.
  change (the_session vol_session _) with (the_session vol_session w).
  destruct (plugin_result env (the_session vol_session w) plugin_name)
    as [rr [[] | e]]; simpl in *.
  - by rewrite <- !app_assoc.
  - rewrite Hends. simpl. by rewrite <- !app_assoc.
Qed.


End Loop.


(** The run of the spec's example: "A" raises with a message, "B" succeeds. *)
Lemma Run_A_fails_B_succeeds :
  replies (Run env_A_fails request_A_B (initial_world 1)).1 =
    [{| plugin := Some "A"; error := Some "cannot read"; sections := [] |};
     {| plugin := Some "B"; error := None;
        sections := [{| table := {| headers := []; rows := [] |};
                        formatted_values := [{| formatstring := "done"; data := [] |}] |}] |}].
Proof. reflexivity. Qed.

(** C1, at a plugin that raises an exception whose text is empty, such as
    [AssertionError()]: [Run] returns and replies once per plugin, in order,
    but the document of the plugin that failed has no error, like the
    document of a plugin that succeeded. *)
Theorem Run_failure_without_error :
  let session := the_session 0 (Run_session env_A_fails_silently request_A_B (initial_world 1)).1 in
  (plugin_result env_A_fails_silently session "A").2
    = Raise {| exc_class := AssertionError; exc_str := "" |} ∧
  (plugin_result env_A_fails_silently session "B").2 = Ok tt ∧
  (Run env_A_fails_silently request_A_B (initial_world 1)).2 = Ok tt ∧
  replies (Run env_A_fails_silently request_A_B (initial_world 1)).1 =
    [{| plugin := Some "A"; error := None; sections := [] |};
     {| plugin := Some "B"; error := None;
        sections := [{| table := {| headers := []; rows := [] |};
                        formatted_values := [{| formatstring := "done"; data := [] |}] |}] |}].
Proof. intros session. repeat split; reflexivity. Qed.

(** ** The request's attributes *)

Lemma setattr_effect (vol_session : nat) (k : string) (v : AttrVal) (w : World) :
  setattr vol_session k v w =
    (set_heap (alter (insert k v) vol_session (heap w)) w, Ok tt).
Proof. done. Qed.

Lemma alter_twice {A} (f g : A → A) (i : nat) (l : list A) :
  alter g i (alter f i l) = alter (λ x, g (f x)) i l.
Proof.
  revert i. induction l as [| x l IH]; intros [| i]; simpl; [done .. |].
  f_equal. apply IH.
Qed.

(** The loop of lines 219 and 220 goes through the items of the dictionary
    and leaves the last value set for each name. *)
Lemma setattrs_fold (vol_session : nat) (items : list (string * PyValue)) (w : World) :
  for_each items (λ '(k, v), setattr vol_session k (AValue v)) w =
    (set_heap
       (alter (λ s : Session, foldl (λ s kv, <[kv.1 := AValue kv.2]> s) s items)
          vol_session (heap w)) w, Ok tt).
Proof.
  revert w. induction items as [| [k v] items IH]; intros w.
  - simpl. unfold ret. rewrite list_alter_id by done. by destruct w.
  - simpl. unfold bind. rewrite setattr_effect, IH.
    unfold set_heap. simpl. by rewrite alter_twice.
Qed.









(** What the replaced attribute does to the loop: the heartbeat can no
    longer be called, so the run that replaced it and the next run for the
    device, which names no attribute, both end with a [TypeError] before any
    plugin is invoked. *)
Lemma Run_after_progress_override :
  let not_callable := {| exc_class := TypeError; exc_str := "object is not callable" |} in
  let w2 := (Run env_A_fails request_progress_override (initial_world 1)).1 in
  (Run env_A_fails request_progress_override (initial_world 1)).2 = Raise not_callable ∧
  log w2 = [] ∧
  (Run env_A_fails request_A_B w2).2 = Raise not_callable ∧
  log (Run env_A_fails request_A_B w2).1 = [].
Proof. intros not_callable w2. repeat split; reflexivity. Qed.

(** * Further properties of the code *)

(** ** [UnicodeStringIO] *)

Lemma string_append_assoc (a b c : string) : (a +:+ b) +:+ c = a +:+ (b +:+ c).
Proof.
  induction a as [| x a IH]; [done |].
  change (String x ((a +:+ b) +:+ c) = String x (a +:+ (b +:+ c))). by rewrite IH.
Qed.

Lemma string_append_nil_r (a : string) : a +:+ "" = a.
Proof.
  induction a as [| x a IH]; [done |].
  change (String x (a +:+ "") = String x a). by rewrite IH.
Qed.

Lemma UnicodeStringIO_writes_from (ds : list string) (self : UnicodeStringIO) :
  for_each ds UnicodeStringIO_write self =
    ({| io_data := io_data self +:+ foldr String.append "" ds |}, Ok tt).
Proof.
  revert self. induction ds as [| d ds IH]; intros [text].
  - unfold for_each, ret. cbn [io_data foldr]. by rewrite string_append_nil_r.
  - cbn [for_each foldr]. unfold bind.
    change (UnicodeStringIO_write d {| io_data := text |})
      with ({| io_data := text +:+ d |}, Ok tt).
    cbv beta iota. rewrite IH. cbn [io_data]. by rewrite string_append_assoc.
Qed.

(** X1: writes on a new [UnicodeStringIO] never raise, and [getvalue] then
    returns the written texts joined in the order they were written; it
    returns the empty text when nothing was written. *)
Theorem UnicodeStringIO_getvalue_concat (ds : list string) :
  (for_each ds UnicodeStringIO_write UnicodeStringIO_init).2 = Ok tt ∧
  UnicodeStringIO_getvalue (for_each ds UnicodeStringIO_write UnicodeStringIO_init).1
    = foldr String.append "" ds.
Proof. by rewrite UnicodeStringIO_writes_from. Qed.

(** ** More on [AddValue] *)

(** [AddValue] only appends: what the loop over the arguments of a call
    does to a row does not depend on what the row holds. *)
Lemma for_each_AddValue_row (args : list PyValue) (row : list VolatilityValue) :
  for_each args AddValue row =
    (row ++ (for_each args AddValue []).1, (for_each args AddValue []).2).
Proof.
  revert row. induction args as [| a args IH]; intros row.
  - simpl. unfold ret. simpl. by rewrite app_nil_r.
  - cbn [for_each]. unfold bind.
    rewrite (AddValue_response_row a row), (AddValue_response_row a []).
    destruct (AddValue_response a new_value) as [v [[] | e]]; cbn [fst snd].
    + rewrite (IH (row ++ [v])), (IH ([] ++ [v])). cbn [fst snd].
      by rewrite <- !app_assoc.
    + done.
Qed.

Lemma coerce_all_length (args : list PyValue) :
  coercible args = true → length (coerce_all args) = length args.
Proof.
  unfold coercible, coerce_all. induction args as [| a args IH]; [done |].
  cbn [for_each]. unfold bind. rewrite (AddValue_response_row a []).
  destruct (AddValue_response a new_value) as [v [[] | e]]; cbn [fst snd]; [| done].
  rewrite (for_each_AddValue_row args ([] ++ [v])). cbn [fst snd].
  intros Hc. rewrite length_app. simpl. by rewrite (IH Hc).
Qed.

(** X2: a call of [table_row] on a new renderer whose arguments [AddValue]
    accepts returns and leaves one table section with no header and one
    row, which has one value per argument. *)
Theorem table_row_width (args : list PyValue) :
  coercible args = true →
  table_row args ProtobufRenderer_init =
    ({| response := {| plugin := None; error := None;
                       sections := [{| table := {| headers := [];
                                                   rows := [coerce_all args] |};
                                       formatted_values := [] |}] |};
        active_section := Some 0%nat;
        mode := Some TABLE |}, Ok tt) ∧
  length (coerce_all args) = length args.
Proof.
  intros Hc. split; [| by apply coerce_all_length].
  unfold table_row, InitSection. unfold_M. simpl.
  by rewrite (coercible_result args Hc).
Qed.

(** X2 for a row of two values. *)
Lemma table_row_width_witness :
  table_row [PyInt 4; PyStr "System"] ProtobufRenderer_init =
    ({| response := {| plugin := None; error := None;
                       sections := [{| table := {| headers := [];
                                                   rows := [coerce_all [PyInt 4; PyStr "System"]] |};
                                       formatted_values := [] |}] |};
        active_section := Some 0%nat;
        mode := Some TABLE |}, Ok tt) ∧
  length (coerce_all [PyInt 4; PyStr "System"]) = 2%nat.
Proof. apply (table_row_width [PyInt 4; PyStr "System"]). reflexivity. Defined.

(** X3: the loop over the arguments stops at the first argument on which
    [AddValue] raises: [table_row] then raises the same exception, and the
    table keeps a short row, with the values of the arguments before and
    the half filled value of the failing one; the arguments after it are
    not looked at. *)
Theorem table_row_stops_at_first_failure (before after : list PyValue)
    (failing : PyValue) (e : PyExc) :
  coercible before = true →
  (AddValue failing []).2 = Raise e →
  table_row (before ++ failing :: after) ProtobufRenderer_init =
    ({| response := {| plugin := None; error := None;
                       sections :=
                         [{| table := {| headers := [];
                                         rows := [coerce_all before
                                                    ++ [(AddValue_response failing new_value).1]] |};
                             formatted_values := [] |}] |};
        active_section := Some 0%nat;
        mode := Some TABLE |}, Raise e).
Proof.
  intros Hc Hfail.
  assert (for_each (before ++ failing :: after) AddValue [] =
            (coerce_all before ++ [(AddValue_response failing new_value).1], Raise e))
    as Hloop.
  { rewrite for_each_app. unfold bind. rewrite (coercible_result before Hc).
    cbn [for_each]. unfold bind.
    rewrite (AddValue_response_row failing (coerce_all before)).
    rewrite (AddValue_response_row failing []) in Hfail. cbn [snd] in Hfail.
    by rewrite Hfail. }
  unfold table_row, InitSection. unfold_M. simpl. by rewrite Hloop.
Qed.

(** X3 for a row whose third argument is an object without text. *)
Lemma table_row_stops_at_first_failure_witness :
  let e := {| exc_class := UnboundLocalError;
              exc_str := "local variable 'string_value' referenced before assignment" |} in
  table_row example_row_args ProtobufRenderer_init =
    ({| response := {| plugin := None; error := None;
                       sections :=
                         [{| table := {| headers := [];
                                         rows := [coerce_all [PyInt 4; PyStr "System"]
                                                    ++ [(AddValue_response
                                                           (PyBaseObject object_without_text)
                                                           new_value).1]] |};
                             formatted_values := [] |}] |};
        active_section := Some 0%nat;
        mode := Some TABLE |}, Raise e).
Proof.
  intros e.
  apply (table_row_stops_at_first_failure [PyInt 4; PyStr "System"] [PyInt 7]
           (PyBaseObject object_without_text) e); reflexivity.
Defined.


(** X5: the coerced value does not tell a boolean from the text of its
    name, nor [None] from the text None: [AddValue] appends equal values. *)
Theorem AddValue_bool_like_text (b : bool) (row : list VolatilityValue) :
  AddValue (PyBool b) row = AddValue (PyStr (if b then "True" else "False")) row ∧
  AddValue PyNone row = AddValue (PyStr "None") row.
Proof. by destruct b. Qed.

(** ** More on the renderer *)

(** [InitSection] keeps the active section when it is set and the mode is
    the one asked for, and adds a section and makes it active otherwise. *)
Lemma InitSection_cases (m : option Modes) (self : ProtobufRenderer) :
  (mode self = m ∧ is_Some (active_section self) ∧ InitSection m self = (self, Ok tt)) ∨
  ((mode self ≠ m ∨ active_section self = None) ∧
   InitSection m self =
     ({| response := set_sections (sections (response self) ++ [new_section])
                       (response self);
         active_section := Some (length (sections (response self)));
         mode := m |}, Ok tt)).
Proof.
  destruct self as [r a md]. unfold InitSection. unfold_M. simpl.
  case_bool_decide as Hm; simpl.
  - right. split; [by left | done].
  - destruct a as [i |]; simpl.
    + left. subst m. split; [done |]. split; [by eexists | done].
    + right. split; [by right | done].
Qed.

Lemma on_active_section_frame (f : Section → Section) (self : ProtobufRenderer) :
  active_section (on_active_section f self) = active_section self ∧
  mode (on_active_section f self) = mode self ∧
  plugin (response (on_active_section f self)) = plugin (response self) ∧
  error (response (on_active_section f self)) = error (response self) ∧
  length (sections (response (on_active_section f self)))
    = length (sections (response self)) ∧
  ∀ i, active_section self ≠ Some i →
       sections (response (on_active_section f self)) !! i
         = sections (response self) !! i.
Proof.
  unfold on_active_section. destruct (active_section self) as [j |] eqn:Ha; simpl.
  - rewrite Ha, length_alter. repeat split; try done.
    intros i Hi. apply list_lookup_alter_ne. congruence.
  - by rewrite Ha.
Qed.

(** The loop of [table_header] over its list: the headers are added to the
    active section one after the other. *)
Lemma table_header_loop (l : list (string * string * string)) (self : ProtobufRenderer) :
  for_each l (λ '(print_name, name, format_hint),
    modify (on_active_section
              (add_header {| h_print_name := print_name; h_name := name;
                             h_format_hint := format_hint |}))) self =
    (foldl (λ s item, on_active_section (add_header (header_of item)) s) self l, Ok tt).
Proof.
  revert self. induction l as [| [[p n] f] l IH]; intros self; [done |].
  cbn [for_each foldl]. unfold bind, modify. by rewrite IH.
Qed.

(** The loop of [table_header] keeps what [on_active_section] keeps. *)
Lemma foldl_on_active_section_keeps (P : ProtobufRenderer → Prop)
    (l : list (string * string * string)) (self : ProtobufRenderer) :
  (∀ f s, P s → P (on_active_section f s)) →
  P self →
  P (foldl (λ s item, on_active_section (add_header (header_of item)) s) self l).
Proof.
  intros Hkeep. revert self. induction l as [| item l IH]; intros self HP; [done |].
  simpl. apply IH. by apply Hkeep.
Qed.

Lemma format_unfold (f : string) (args : list PyValue) (self : ProtobufRenderer) :
  format f args self =
    (on_active_section
       (add_formatted_value {| formatstring := f; data := coerce_all args |})
       (InitSection (Some STRING) self).1,
     (for_each args AddValue []).2).
Proof.
  unfold format, bind, coerce_all.
  destruct (InitSection_cases (Some STRING) self) as [(_ & _ & ->) | (_ & ->)];
    cbn [fst snd]; by destruct (for_each args AddValue []).
Qed.

Lemma table_row_unfold (args : list PyValue) (self : ProtobufRenderer) :
  table_row args self =
    (on_active_section (add_row (coerce_all args)) (InitSection (Some TABLE) self).1,
     (for_each args AddValue []).2).
Proof.
  unfold table_row, bind, coerce_all.
  destruct (InitSection_cases (Some TABLE) self) as [(_ & _ & ->) | (_ & ->)];
    cbn [fst snd]; by destruct (for_each args AddValue []).
Qed.

Lemma table_header_unfold (title_format_list : option (list (string * string * string)))
    (self : ProtobufRenderer) :
  table_header title_format_list self =
    match title_format_list with
    | None => ((InitSection (Some TABLE) self).1,
               Raise {| exc_class := TypeError;
                        exc_str := "'NoneType' object is not iterable" |})
    | Some l =>
        (foldl (λ s item, on_active_section (add_header (header_of item)) s)
           (InitSection (Some TABLE) self).1 l, Ok tt)
    end.
Proof.
  unfold table_header, bind.
  destruct (InitSection_cases (Some TABLE) self) as [(_ & _ & ->) | (_ & ->)];
    cbn [fst snd]; destruct title_format_list as [l |];
    by rewrite ?table_header_loop.
Qed.

(** A property of renderers that [InitSection], [on_active_section],
    [section] and [start] keep is kept by every call. *)
Lemma render_call_keeps (P : ProtobufRenderer → Prop) (c : RenderCall)
    (self : ProtobufRenderer) :
  (∀ m s, P s → P (InitSection (Some m) s).1) →
  (∀ f s, P s → P (on_active_section f s)) →
  (∀ s, P s → P (set_active_section None s)) →
  (∀ p s, P s → P (set_response (set_plugin p (response s)) s)) →
  P self → P (render_call c self).1.
Proof.
  intros Hinit Hact Hsec Hstart HP.
  destruct c as [p | | d | f args | | | l | args]; simpl.
  - unfold start. destruct p as [p |]; [| done].
    destruct (nonempty p); [| done]. by apply Hstart.
  - done.
  - unfold write. rewrite format_unfold. by apply Hact, Hinit.
  - rewrite format_unfold. by apply Hact, Hinit.
  - by apply Hsec.
  - done.
  - rewrite table_header_unfold. destruct l as [l |]; simpl; [| by apply Hinit].
    apply foldl_on_active_section_keeps; [done |]. by apply Hinit.
  - rewrite table_row_unfold. by apply Hact, Hinit.
Qed.

Lemma render_calls_keep (P : ProtobufRenderer → Prop) (cs : list RenderCall)
    (self : ProtobufRenderer) :
  (∀ c s, P s → P (render_call c s).1) →
  P self → P (for_each cs render_call self).1.
Proof.
  intros Hcall. revert self. induction cs as [| c cs IH]; intros self HP; [done |].
  cbn [for_each]. unfold bind. specialize (Hcall c self HP).
  destruct (render_call c self) as [s' [[] | e]]; cbn [fst] in *; [by apply IH | done].
Qed.

(** X6: after any calls on a new renderer, whether they returned or not,
    [active_section] is unset or refers to the last section of the
    response, and a mode is set whenever it is set. *)
Theorem ProtobufRenderer_active_is_last (cs : list RenderCall) :
  active_is_last (for_each cs render_call ProtobufRenderer_init).1.
Proof.
  apply render_calls_keep; [| done].
  intros c s Hs. apply render_call_keeps; [| | | | done].
  - intros m s0 Hs0.
    destruct (InitSection_cases (Some m) s0) as [(_ & _ & ->) | (_ & ->)]; [done |].
    unfold active_is_last. simpl. rewrite length_app. simpl. split; [lia | by eexists].
  - intros f s0 Hs0. unfold active_is_last in *.
    destruct (on_active_section_frame f s0) as (-> & -> & _ & _ & -> & _). done.
  - done.
  - done.
Qed.

(** X7: a section that is not the active one is final: whatever calls
    follow, and however they end, it stays as it is, and the response never
    loses a section. *)
Theorem ProtobufRenderer_closed_sections_stay (cs : list RenderCall)
    (self : ProtobufRenderer) (i : nat) :
  (i < length (sections (response self)))%nat →
  active_section self ≠ Some i →
  sections (response (for_each cs render_call self).1) !! i
    = sections (response self) !! i ∧
  (length (sections (response self))
     ≤ length (sections (response (for_each cs render_call self).1)))%nat.
Proof.
  intros Hi Hactive.
  pose (P := λ s : ProtobufRenderer,
          (length (sections (response self)) ≤ length (sections (response s)))%nat ∧
          active_section s ≠ Some i ∧
          sections (response s) !! i = sections (response self) !! i).
  assert (P (for_each cs render_call self).1) as (Hlen & _ & Hlook); [| done].
  apply render_calls_keep; [| done].
  intros c s Hs. apply render_call_keeps; [| | | | done]; clear s Hs.
  - intros m s (Hlen & Hact & Hlook).
    destruct (InitSection_cases (Some m) s) as [(_ & _ & ->) | (_ & ->)]; [done |].
    unfold P. simpl. rewrite length_app. simpl.
    split; [lia |]. split; [intros [= <-]; lia |].
    rewrite lookup_app_l by lia. done.
  - intros f s (Hlen & Hact & Hlook).
    destruct (on_active_section_frame f s) as (Ha & _ & _ & _ & Hl & Hother).
    unfold P. rewrite Ha, Hl, (Hother i Hact). done.
  - intros s (Hlen & Hact & Hlook). done.
  - intros p s (Hlen & Hact & Hlook). done.
Qed.

(** X7 for the first section of a renderer that has gone on to a table. *)
Lemma ProtobufRenderer_closed_sections_stay_witness :
  let self := (for_each [CallWrite "first"; CallTableRow [PyInt 1]] render_call
                 ProtobufRenderer_init).1 in
  sections (response (for_each example_table_calls render_call self).1) !! 0%nat
    = sections (response self) !! 0%nat ∧
  (length (sections (response self))
     ≤ length (sections (response (for_each example_table_calls render_call self).1)))%nat.
Proof.
  intros self.
  apply (ProtobufRenderer_closed_sections_stay example_table_calls self 0);
    [simpl; lia | discriminate].
Defined.

(** X8: after [section()], the next write starts a section of its own, also
    when the mode stays the same: [format] adds a section with its one
    entry at the end of the response, and [table_row] a section with its
    one row. Neither call looks at the sections before. *)
Theorem section_starts_new_section (self : ProtobufRenderer) :
  (∀ f args,
     (do _ <- section ; format f args) self =
       ({| response :=
             set_sections
               (sections (response self)
                  ++ [{| table := {| headers := []; rows := [] |};
                         formatted_values :=
                           [{| formatstring := f; data := coerce_all args |}] |}])
               (response self);
           active_section := Some (length (sections (response self)));
           mode := Some STRING |}, (for_each args AddValue []).2)) ∧
  (∀ args,
     (do _ <- section ; table_row args) self =
       ({| response :=
             set_sections
               (sections (response self)
                  ++ [{| table := {| headers := []; rows := [coerce_all args] |};
                         formatted_values := [] |}])
               (response self);
           active_section := Some (length (sections (response self)));
           mode := Some TABLE |}, (for_each args AddValue []).2)).
Proof.
  split; intros; unfold bind, section, modify;
    rewrite ?format_unfold, ?table_row_unfold;
    (match goal with
     | |- context [InitSection ?m ?s] =>
         destruct (InitSection_cases m s) as [(_ & [j Hj] & _) | (_ & ->)];
           [done |]
     end);
    cbn [fst]; unfold on_active_section, set_response, set_sections; simpl;
    by rewrite alter_at_length.
Qed.

(** X9: [table_header] without a list raises [TypeError], after it has made
    a table section the active one: the renderer is as it was when a table
    section was active already, and has one more, empty section
    otherwise. *)
Theorem table_header_without_list (self : ProtobufRenderer) :
  (table_header None self).2
    = Raise {| exc_class := TypeError; exc_str := "'NoneType' object is not iterable" |} ∧
  mode (table_header None self).1 = Some TABLE ∧
  is_Some (active_section (table_header None self).1) ∧
  ((mode self = Some TABLE ∧ is_Some (active_section self) ∧
    (table_header None self).1 = self) ∨
   ((mode self ≠ Some TABLE ∨ active_section self = None) ∧
    sections (response (table_header None self).1)
      = sections (response self) ++ [new_section])).
Proof.
  rewrite table_header_unfold. cbn [fst snd]. split; [done |].
  destruct (InitSection_cases (Some TABLE) self) as [(Hm & Ha & ->) | (Hor & ->)];
    cbn [fst].
  - split; [done |]. split; [done |]. by left.
  - split; [done |]. split; [by eexists |]. by right.
Qed.

Lemma foldl_add_header_one_table (l : list (string * string * string)) (s : Section) :
  foldl (λ r item, on_active_section (add_header (header_of item)) r) (one_table s) l
    = one_table (extend_table s (header_of <$> l) []).
Proof.
  revert s. induction l as [| item l IH]; intros [[hs rs] fvs].
  - unfold extend_table. simpl. by rewrite !app_nil_r.
  - cbn [foldl].
    change (on_active_section (add_header (header_of item))
              (one_table {| table := {| headers := hs; rows := rs |};
                            formatted_values := fvs |}))
      with (one_table {| table := {| headers := hs ++ [header_of item]; rows := rs |};
                         formatted_values := fvs |}).
    rewrite IH. unfold extend_table. simpl. by rewrite <- !app_assoc.
Qed.

(** A table call on a renderer that [InitSection] takes to one active table
    section. *)
Lemma table_call_one_table (c : RenderCall) (self : ProtobufRenderer) (s : Section) :
  is_table_call c = true →
  (InitSection (Some TABLE) self).1 = one_table s →
  render_call c self =
    (one_table (extend_table s (table_call_headers c) (table_call_rows c)), Ok tt).
Proof.
  intros Hc Hinit. destruct c as [| | | | | | [l |] | args]; try done; simpl in *.
  - rewrite table_header_unfold, Hinit. by rewrite foldl_add_header_one_table.
  - rewrite table_row_unfold, Hinit. rewrite (coercible_result args Hc).
    destruct s as [[hs rs] fvs]. unfold extend_table. simpl. by rewrite app_nil_r.
Qed.

Lemma table_calls_one_table (cs : list RenderCall) (s : Section) :
  forallb is_table_call cs = true →
  for_each cs render_call (one_table s) =
    (one_table (extend_table s (concat (table_call_headers <$> cs))
                  (concat (table_call_rows <$> cs))), Ok tt).
Proof.
  revert s. induction cs as [| c cs IH]; intros s Hcs.
  - destruct s as [[hs rs] fvs]. unfold extend_table. simpl. by rewrite !app_nil_r.
  - simpl in Hcs. apply andb_prop in Hcs as [Hc Hcs].
    cbn [for_each]. unfold bind.
    rewrite (table_call_one_table c (one_table s) s Hc) by done.
    rewrite (IH _ Hcs). destruct s as [[hs rs] fvs]. unfold extend_table. simpl.
    by rewrite <- !app_assoc.
Qed.

(** X10: calls of [table_header] with a list and of [table_row] with
    arguments that [AddValue] accepts, in any number and order, on a new
    renderer, return and leave exactly one section: its headers are those
    of all the header calls in order (a second call adds to the headers of
    the first), its rows those of all the row calls in order. *)
Theorem table_calls_share_one_section (cs : list RenderCall) :
  cs ≠ [] →
  forallb is_table_call cs = true →
  for_each cs render_call ProtobufRenderer_init =
    ({| response :=
          {| plugin := None; error := None;
             sections := [{| table := {| headers := concat (table_call_headers <$> cs);
                                         rows := concat (table_call_rows <$> cs) |};
                             formatted_values := [] |}] |};
        active_section := Some 0%nat;
        mode := Some TABLE |}, Ok tt).
Proof.
  destruct cs as [| c cs]; [done |]. intros _ Hcs.
  simpl in Hcs. apply andb_prop in Hcs as [Hc Hcs].
  cbn [for_each]. unfold bind.
  rewrite (table_call_one_table c ProtobufRenderer_init new_section Hc) by done.
  by rewrite (table_calls_one_table _ _ Hcs).
Qed.

(** X10 for two header calls followed by two rows. *)
Lemma table_calls_share_one_section_witness :
  for_each example_table_calls render_call ProtobufRenderer_init =
    ({| response :=
          {| plugin := None; error := None;
             sections := [{| table := {| headers := concat (table_call_headers
                                                             <$> example_table_calls);
                                         rows := concat (table_call_rows
                                                          <$> example_table_calls) |};
                             formatted_values := [] |}] |};
        active_section := Some 0%nat;
        mode := Some TABLE |}, Ok tt) ∧
  length (concat (table_call_headers <$> example_table_calls)) = 2%nat.
Proof.
  split; [| reflexivity].
  apply (table_calls_share_one_section example_table_calls); [discriminate | reflexivity].
Defined.

(** ** More on the loop over the plugins *)

Lemma render_call_error (c : RenderCall) (self : ProtobufRenderer) :
  error (response (render_call c self).1) = error (response self).
Proof.
  apply (render_call_keeps (λ s, error (response s) = error (response self)));
    [| | | | done].
  - intros m s Hs.
    by destruct (InitSection_cases (Some m) s) as [(_ & _ & ->) | (_ & ->)].
  - intros f s Hs. by destruct (on_active_section_frame f s) as (_ & _ & _ & -> & _).
  - done.
  - done.
Qed.

Lemma render_call_label (c : RenderCall) (self : ProtobufRenderer) :
  is_CallStart c = false →
  plugin (response (render_call c self).1) = plugin (response self).
Proof.
  assert (∀ m s, plugin (response (InitSection (Some m) s).1) = plugin (response s))
    as Hinit.
  { intros m s. by destruct (InitSection_cases (Some m) s) as [(_ & _ & ->) | (_ & ->)]. }
  assert (∀ f s, plugin (response (on_active_section f s)) = plugin (response s))
    as Hact.
  { intros f s. by destruct (on_active_section_frame f s) as (_ & _ & -> & _). }
  intros Hc. destruct c as [p | | d | f args | | | l | args]; cbn [render_call];
    try done.
  - unfold write. rewrite format_unfold. cbn [fst]. by rewrite Hact, Hinit.
  - rewrite format_unfold. cbn [fst]. by rewrite Hact, Hinit.
  - rewrite table_header_unfold. destruct l as [l |]; cbn [fst]; [| apply Hinit].
    rewrite <- (Hinit TABLE self).
    apply (foldl_on_active_section_keeps
             (λ s, plugin (response s)
                   = plugin (response (InitSection (Some TABLE) self).1))); [| done].
    intros f s Hs. by rewrite Hact.
  - rewrite table_row_unfold. cbn [fst]. by rewrite Hact, Hinit.
Qed.

(** The renderer a plugin leaves behind is the one its calls have made of
    the started renderer, as far as they went. *)
Lemma plugin_result_state (env : Env) (session : Session) (plugin_name : string) :
  (plugin_result env session plugin_name).1 =
    (for_each (run_plugin env (default (AValue PyNone) (session !! "plugins"))
                 plugin_name session).1
       render_call (start (Some plugin_name) ProtobufRenderer_init).1).1.
Proof.
  unfold plugin_result, render_plugin, bind.
  destruct (run_plugin env _ plugin_name session) as [calls failure].
  assert ((start (Some plugin_name) ProtobufRenderer_init).2 = Ok tt) as Hstart.
  { unfold start. by destruct (nonempty plugin_name). }
  destruct (start (Some plugin_name) ProtobufRenderer_init) as [r [[] | e]]; [| done].
  cbn [fst snd].
  destruct (for_each calls render_call r) as [r' [[] | e]]; [| done].
  by destruct failure.
Qed.

Lemma plugin_result_error (env : Env) (session : Session) (plugin_name : string) :
  error (response (plugin_result env session plugin_name).1) = None.
Proof.
  rewrite plugin_result_state.
  apply (render_calls_keep (λ s, error (response s) = None)).
  - intros c s Hs. by rewrite render_call_error.
  - unfold start. by destruct (nonempty plugin_name).
Qed.

(** X11: the reply [Run] sends for a plugin that returned or raised an
    instance of [Exception] has the sections and the label of the renderer
    as the plugin left it, so the sections written before a failure are
    sent too; its error is the text of the exception when the plugin raised
    and that text is not empty, and is unset otherwise. No call of the
    renderer sets the error. *)
Theorem Run_plugin_reply (env : Env) (vol_session : nat) (plugin_name : string)
    (w : World) :
  the_session vol_session w !! "progress" = Some AProgress →
  ends_within_Exception env (the_session vol_session w) plugin_name = true →
  ∃ reply,
    Run_plugin env vol_session plugin_name w =
      ({| heap := heap w; SESSION_CACHE := SESSION_CACHE w;
          log := log w ++ [Progress ("Running plugin " +:+ plugin_name);
                           Invoke plugin_name; SendReply reply] |}, Ok tt) ∧
    error reply
      = error_of (plugin_result env (the_session vol_session w) plugin_name).2 ∧
    sections reply
      = sections (response (plugin_result env (the_session vol_session w) plugin_name).1) ∧
    plugin reply
      = plugin (response (plugin_result env (the_session vol_session w) plugin_name).1).
Proof.
  intros Hprogress Hends.
  exists (reply_of env (the_session vol_session w) plugin_name).
  split; [by apply Run_plugin_turn |].
  pose proof (plugin_result_error env (the_session vol_session w) plugin_name) as Herr.
  unfold reply_of, error_of.
  destruct (plugin_result env (the_session vol_session w) plugin_name)
    as [rr [[] | e]]; cbn [fst snd] in *; [done |].
  by destruct (nonempty (exc_str e)).
Qed.

(** X11 for a plugin that writes a row and then raises: the row is sent
    with the error. *)
Lemma Run_plugin_reply_witness :
  let w := (Run_session env_A_fails_late request_A_B (initial_world 1)).1 in
  ∃ reply,
    Run_plugin env_A_fails_late 0 "A" w =
      ({| heap := heap w; SESSION_CACHE := SESSION_CACHE w;
          log := log w ++ [Progress ("Running plugin " +:+ "A");
                           Invoke "A"; SendReply reply] |}, Ok tt) ∧
    error reply = Some "cannot read" ∧
    length (sections reply) = 1%nat.
Proof.
  intros w.
  destruct (Run_plugin_reply env_A_fails_late 0 "A" w) as (reply & Hrun & He & Hs & _);
    [reflexivity | reflexivity |].
  exists reply. split; [exact Hrun |]. split; [by rewrite He | by rewrite Hs].
Defined.

(** X12: when the plugin itself does not call [start], the renderer it
    leaves behind, and so its reply, is labelled with the requested name,
    and has no label when that name is the empty text. *)
Theorem plugin_result_label (env : Env) (session : Session) (plugin_name : string) :
  forallb (λ c, negb (is_CallStart c))
    (run_plugin env (default (AValue PyNone) (session !! "plugins"))
       plugin_name session).1 = true →
  plugin (response (plugin_result env session plugin_name).1)
    = (if nonempty plugin_name then Some plugin_name else None) ∧
  plugin (reply_of env session plugin_name)
    = (if nonempty plugin_name then Some plugin_name else None).
Proof.
  intros Hcalls.
  assert (plugin (response (plugin_result env session plugin_name).1)
            = (if nonempty plugin_name then Some plugin_name else None)) as Hlabel.
  { rewrite plugin_result_state.
    set (calls := (run_plugin env _ plugin_name session).1) in *.
    set (r := (start (Some plugin_name) ProtobufRenderer_init).1).
    assert (plugin (response r) = if nonempty plugin_name then Some plugin_name else None)
      as Hr.
    { unfold r, start. by destruct (nonempty plugin_name). }
    rewrite <- Hr. clearbody r. clear Hr. revert r.
    induction calls as [| c calls IH]; intros r; [done |].
    simpl in Hcalls. apply andb_prop in Hcalls as [Hc Hcalls].
    apply negb_true_iff in Hc.
    cbn [for_each]. unfold bind.
    pose proof (render_call_label c r Hc) as Hstep.
    destruct (render_call c r) as [r' [[] | e]]; cbn [fst] in *; [| done].
    by rewrite (IH Hcalls r'). }
  split; [done |].
  unfold reply_of.
  destruct (plugin_result env session plugin_name) as [rr [[] | e]];
    cbn [fst] in *; [done |].
  by destruct (nonempty (exc_str e)).
Qed.

(** X12 for a plugin without a name. *)
Lemma plugin_result_label_witness :
  plugin (response (plugin_result env_A_fails ∅ "").1) = None ∧
  plugin (reply_of env_A_fails ∅ "") = None.
Proof. apply (plugin_result_label env_A_fails ∅ ""). reflexivity. Defined.

(** The replies of a world whose log has grown. *)
Lemma replies_log_app (h : list Session) (c : FastStore) (l l' : list Event) :
  replies {| heap := h; SESSION_CACHE := c; log := l ++ l' |} =
    replies {| heap := h; SESSION_CACHE := c; log := l |}
      ++ omap (λ e, match e with SendReply r => Some r | _ => None end) l'.
Proof. unfold replies. simpl. apply omap_app. Qed.

(** A turn of the loop sends one reply when it returns and none when it
    raises. *)
Lemma Run_plugin_replies (env : Env) (vol_session : nat) (plugin_name : string)
    (w : World) :
  match (Run_plugin env vol_session plugin_name w).2 with
  | Ok _ => ∃ reply, replies (Run_plugin env vol_session plugin_name w).1
                       = replies w ++ [reply]
  | Raise _ => replies (Run_plugin env vol_session plugin_name w).1 = replies w
  end.
Proof.
  destruct w as [h c l].
  unfold Run_plugin, getattr, call_progress, emit. unfold_M. simpl.
  destruct (default (AValue PyNone)
              (the_session vol_session {| heap := h; SESSION_CACHE := c; log := l |}
                 !! "progress")); simpl; try done.
  change (the_session vol_session _)
    with (the_session vol_session {| heap := h; SESSION_CACHE := c; log := l |}).
  destruct (plugin_result env _ plugin_name) as [rr [[] | e]]; simpl.
  - eexists. rewrite !replies_log_app. simpl. by rewrite !app_nil_r.
  - destruct (isinstance_Exception e); simpl.
    + eexists. rewrite !replies_log_app. simpl. by rewrite !app_nil_r.
    + rewrite !replies_log_app. simpl. by rewrite !app_nil_r.
Qed.

Lemma Run_plugins_replies (env : Env) (vol_session : nat) (names : list string)
    (w : World) :
  ∃ sent, replies (for_each names (Run_plugin env vol_session) w).1 = replies w ++ sent ∧
          match (for_each names (Run_plugin env vol_session) w).2 with
          | Ok _ => length sent = length names
          | Raise _ => (length sent < length names)%nat
          end.
Proof.
  revert w. induction names as [| n names IH]; intros w.
  - exists []. by rewrite app_nil_r.
  - cbn [for_each]. unfold bind.
    pose proof (Run_plugin_replies env vol_session n w) as Hturn.
    destruct (Run_plugin env vol_session n w) as [w' [[] | e]]; cbn [fst snd] in *.
    + destruct Hturn as [reply Hturn]. destruct (IH w') as (sent & Hsent & Hcount).
      exists (reply :: sent). rewrite Hsent, Hturn, <- app_assoc. split; [done |].
      destruct (for_each names (Run_plugin env vol_session) w').2; simpl; lia.
    + exists []. rewrite app_nil_r. split; [done |]. simpl. lia.
Qed.

Lemma Run_session_log (env : Env) (args : VolatilityRequest) (w : World) :
  log (Run_session env args w).1 = log w.
Proof.
  destruct (store_lookup (path (device args)) (SESSION_CACHE w)) as [obj |] eqn:Hlook.
  - by rewrite (Run_session_hit _ _ _ _ Hlook).
  - rewrite (Run_session_miss _ _ _ Hlook).
    pose proof (Run_build_session_effect env args w) as Heff.
    destruct (Run_build_session env args w) as [w1 [obj | e]]; cbn [fst];
      [by destruct Heff as (_ & _ & _ & ?) | by destruct Heff as (_ & _ & ?)].
Qed.

(** X13: the replies of [Run] are sent after those sent before; a run that
    returns has sent exactly one reply for each requested plugin, and a run
    that raises has sent fewer replies than plugins were requested (none
    when none was requested). *)
Theorem Run_replies_count (env : Env) (args : VolatilityRequest) (w : World) :
  ∃ sent, replies (Run env args w).1 = replies w ++ sent ∧
          match (Run env args w).2 with
          | Ok _ => length sent = length (plugins args)
          | Raise _ => (length sent ≤ pred (length (plugins args)))%nat
          end.
Proof.
  pose proof (Run_session_log env args w) as Hlog.
  unfold Run, bind.
  destruct (Run_session env args w) as [w1 [obj | e]]; cbn [fst] in Hlog.
  - unfold Run_setattrs. rewrite setattrs_fold.
    set (w2 := set_heap _ w1).
    assert (replies w2 = replies w) as Hsame by (unfold replies; simpl; by rewrite Hlog).
    destruct (Run_plugins_replies env obj (plugins args) w2) as (sent & Hsent & Hcount).
    exists sent. rewrite Hsent, Hsame. split; [done |].
    destruct (for_each (plugins args) (Run_plugin env obj) w2).2; [done | lia].
  - exists []. rewrite app_nil_r. cbn [fst snd]. split; [| simpl; lia].
    unfold replies. by rewrite Hlog.
Qed.

(** The loop after plugins that end within [Exception] goes on from a world
    that differs by the events of their turns. *)
Lemma Run_plugins_prefix (env : Env) (vol_session : nat) (before rest : list string)
    (w : World) :
  the_session vol_session w !! "progress" = Some AProgress →
  forallb (ends_within_Exception env (the_session vol_session w)) before = true →
  for_each (before ++ rest) (Run_plugin env vol_session) w =
    for_each rest (Run_plugin env vol_session)
      {| heap := heap w; SESSION_CACHE := SESSION_CACHE w;
         log := log w ++ concat (turn env (the_session vol_session w) <$> before) |}.
Proof.
  revert w. induction before as [| n before IH]; intros w Hprogress Hends.
  - simpl. rewrite app_nil_r. by destruct w.
  - simpl in Hends. apply andb_prop in Hends as [Hn Hbefore].
    cbn [app for_each]. unfold bind.
    rewrite (Run_plugin_turn _ _ _ _ Hprogress Hn).
    rewrite IH; [| done | done]. cbn [heap SESSION_CACHE log fmap list_fmap concat].
    change (the_session vol_session _) with (the_session vol_session w).
    by rewrite <- !app_assoc.
Qed.

(** A turn of the loop for a plugin that raises outside [Exception]. *)
Lemma Run_plugin_uncaught (env : Env) (vol_session : nat) (plugin_name : string)
    (e : PyExc) (w : World) :
  the_session vol_session w !! "progress" = Some AProgress →
  (plugin_result env (the_session vol_session w) plugin_name).2 = Raise e →
  isinstance_Exception e = false →
  Run_plugin env vol_session plugin_name w =
    ({| heap := heap w; SESSION_CACHE := SESSION_CACHE w;
        log := log w ++ [Progress ("Running plugin " +:+ plugin_name);
                         Invoke plugin_name] |}, Raise e).
Proof.
  intros Hprogress Hraise Hclass.
  unfold Run_plugin, getattr, call_progress, emit. unfold_M. simpl.
  rewrite Hprogress. simpl.
  change (the_session vol_session _) with (the_session vol_session w).
  destruct (plugin_result env (the_session vol_session w) plugin_name) as [rr outcome].
  cbn [snd] in Hraise. subst outcome. rewrite Hclass. simpl.
  by rewrite <- !app_assoc.
Qed.

(** X14: an exception of a plugin that is not an instance of [Exception],
    such as [KeyboardInterrupt], is not caught: it leaves the loop at once,
    after the replies of the plugins before; the plugin that raised it gets
    its heartbeat but no reply, and the plugins after it are not run. *)
Theorem Run_plugins_stop (env : Env) (vol_session : nat) (before after : list string)
    (plugin_name : string) (e : PyExc) (w : World) :
  the_session vol_session w !! "progress" = Some AProgress →
  forallb (ends_within_Exception env (the_session vol_session w)) before = true →
  (plugin_result env (the_session vol_session w) plugin_name).2 = Raise e →
  isinstance_Exception e = false →
  for_each (before ++ plugin_name :: after) (Run_plugin env vol_session) w =
    ({| heap := heap w; SESSION_CACHE := SESSION_CACHE w;
        log := log w ++ concat (turn env (the_session vol_session w) <$> before)
                 ++ [Progress ("Running plugin " +:+ plugin_name); Invoke plugin_name] |},
     Raise e).
Proof.
  intros Hprogress Hends Hraise Hclass.
  rewrite (Run_plugins_prefix _ _ _ _ _ Hprogress Hends).
  cbn [for_each]. unfold bind.
  rewrite (Run_plugin_uncaught env vol_session plugin_name e); [| done ..].
  cbn [heap SESSION_CACHE log]. by rewrite <- !app_assoc.
Qed.

(** X14 for plugins "B", "A", "B", where "A" ends with
    [KeyboardInterrupt]: one reply is sent. *)
Lemma Run_plugins_stop_witness :
  let w := (Run_session env_A_interrupted request_A_B (initial_world 1)).1 in
  let e := {| exc_class := KeyboardInterrupt; exc_str := "" |} in
  for_each (["B"] ++ "A" :: ["B"]) (Run_plugin env_A_interrupted 0) w =
    ({| heap := heap w; SESSION_CACHE := SESSION_CACHE w;
        log := log w ++ concat (turn env_A_interrupted (the_session 0 w) <$> ["B"])
                 ++ [Progress ("Running plugin " +:+ "A"); Invoke "A"] |},
     Raise e).
Proof.
  intros w e.
  apply (Run_plugins_stop env_A_interrupted 0 ["B"] ["B"] "A" e w); reflexivity.
Defined.



(** ** More on building a session *)






(** ** [Run] from end to end *)



(** ** What makes a call of the renderer raise *)

Lemma render_call_outcome (c : RenderCall) (self : ProtobufRenderer) :
  (render_call c self).2 =
    match c with
    | CallTableHeader None =>
        Raise {| exc_class := TypeError; exc_str := "'NoneType' object is not iterable" |}
    | _ => (for_each (call_values c) AddValue []).2
    end.
Proof.
  destruct c as [p | | d | f args | | | l | args]; cbn [render_call call_values].
  - unfold start. destruct p as [p |]; [| done]. by destruct (nonempty p).
  - done.
  - unfold write. by rewrite format_unfold.
  - by rewrite format_unfold.
  - done.
  - done.
  - rewrite table_header_unfold. by destruct l.
  - by rewrite table_row_unfold.
Qed.

(** X18: a call of the renderer raises only for two reasons, whatever the
    state of the renderer: [AddValue] raises on one of its values, or
    [table_header] is called without a list. A sequence of calls with
    neither returns. *)
Theorem render_calls_return (cs : list RenderCall) (self : ProtobufRenderer) :
  forallb call_is_safe cs = true →
  (for_each cs render_call self).2 = Ok tt.
Proof.
  revert self. induction cs as [| c cs IH]; intros self Hcs; [done |].
  simpl in Hcs. apply andb_prop in Hcs as [Hc Hcs].
  cbn [for_each]. unfold bind.
  pose proof (render_call_outcome c self) as Hout.
  destruct (render_call c self) as [s' [[] | e]]; cbn [snd] in Hout; [by apply IH |].
  unfold call_is_safe, coercible in Hc.
  destruct c as [p | | d | f args | | | [l |] | args]; cbn [call_values] in *;
    try done; by rewrite <- Hout in Hc.
Qed.

(** X18 for a sequence that calls every method of the renderer. *)
Lemma render_calls_return_witness :
  (for_each example_safe_calls render_call ProtobufRenderer_init).2 = Ok tt.
Proof. apply (render_calls_return example_safe_calls ProtobufRenderer_init). reflexivity. Defined.
